(** * NIBOR Terminal: launcher scripts and desktop-shortcut batch file

    The repository holds four launchers (NIBOR_Recon.pyw, two further
    Python launchers, start_nibor.vbs) and create_shortcut.bat.  Each
    script is embedded as a function in a small monad that threads the
    state of the running process (or of the file store, for the batch
    file) and records the operating-system calls the script issues. *)

From Stdlib Require Import ZArith List Ascii String Bool Lia.
From stdpp Require Import base gmap strings list fin_maps.

Local Open Scope Z_scope.

(** ** Paths *)

Module Path.

(** An absolute path is the list of its components below the root
    (a drive letter, where there is one, is the first component). UNC
    shares and the POSIX root written with exactly two slashes are not
    represented. *)
Definition apath := list string.

(** A path as a script receives it: absolute, or relative to the
    current directory of the process. *)
Inductive path :=
| Abs (l : apath)
| Rel (l : list string).

(** Normalisation of components: [.] and empty components are dropped,
    [..] removes the component before it (and is dropped at the root).
    [st] is the reversed prefix already normalised. *)
Fixpoint normpath_go (st l : list string) : apath :=
  match l with
  | [] => rev st
  | c :: l' =>
      if String.eqb c "." || String.eqb c EmptyString then normpath_go st l'
      else if String.eqb c ".." then normpath_go (tail st) l'
      else normpath_go (c :: st) l'
  end.

Definition is_letter (a : ascii) : bool :=
  let n := nat_of_ascii a in
  ((65 <=? n) && (n <=? 90) || (97 <=? n) && (n <=? 122))%nat.

(** A drive: one letter and a colon. *)
Definition is_drive (c : string) : bool :=
  match c with
  | String a (String ":" EmptyString) => is_letter a
  | _ => false
  end.

(** [ntpath.normpath]: a drive belongs to the root, so [..] never
    removes it. *)
Definition normpath (l : list string) : apath :=
  match l with
  | d :: l' => if is_drive d then d :: normpath_go [] l' else normpath_go [] l
  | [] => []
  end.

(** [posixpath.normpath]: every component is an ordinary name. *)
Definition posix_normpath (l : list string) : apath := normpath_go [] l.

(** [os.path.abspath(p)] = [normpath(join(os.getcwd(), p))], with the
    normalisation of the platform ([win]: Windows). *)
Definition abspath (win : bool) (cwd : apath) (p : path) : apath :=
  let norm := if win then normpath else posix_normpath in
  match p with
  | Abs l => norm l
  | Rel l => norm (cwd ++ l)
  end.

(** [os.path.dirname] and [fso.GetParentFolderName]: all but the last
    component; the root is its own parent. *)
Definition dirname (p : apath) : apath := removelast p.

(** [os.path.join(d, name)] and [Path.__truediv__] for one component. *)
Definition join (d : apath) (name : string) : apath := d ++ [name].

End Path.

Import Path.

Notation "d // name" := (join d name) (at level 40, left associativity).

(** ** Errors and results *)

Inductive exn :=
| OSError (what : string) (p : apath)
    (** an [OSError] of Python, by the name of its class, and the path *)
| PyError (what : string)
    (** any other exception of Python, by the name of its class *)
| WshRuntimeError (what : string).
    (** a run-time error of the Windows script host *)

Inductive result (A : Type) :=
| Ok (a : A)
| Raised (e : exn).
Arguments Ok {A} a.
Arguments Raised {A} e.

(** ** The host a launcher runs on *)

Record host := {
  h_cwd : apath;             (** current directory at invocation *)
  h_file : path;             (** the launcher's file name as given at invocation
                                 ([__file__]; the argument of wscript) *)
  h_home : apath;            (** [Path.home()], from USERPROFILE on Windows *)
  h_executable : string;     (** [sys.executable] *)
  h_platform : string;       (** [sys.platform] *)
  h_sys_path : list apath;   (** [sys.path] when the launcher starts *)
  h_is_dir : apath -> bool;  (** the directories that exist *)
  h_is_file : apath -> bool; (** the regular files that exist *)
  h_on_path : string -> bool; (** the program names found through PATH *)
  h_console : bool;          (** the launcher has an error stream to write to
                                 (python, cscript), or has none (pythonw,
                                 wscript) *)
  h_main_ends : result unit  (** how the application ends when its main
                                 script is run inside the calling
                                 interpreter: normally, or with the
                                 exception it lets through *)
}.

Definition on_windows (h : host) : bool := String.eqb (h_platform h) "win32".

(** Where the launcher file really is: the name given at invocation,
    resolved against the invocation directory. *)
Definition launcher_location (h : host) : apath :=
  abspath (on_windows h) (h_cwd h) (h_file h).

(** A launcher that is being executed exists, hence so does its directory. *)
Definition launcher_present (h : host) : Prop :=
  h_is_dir h (dirname (launcher_location h)) = true.

(** ** Calls, traces and the script monad *)

(** The requests a launcher makes to the operating system. *)
Inductive event :=
| Chdir (d : apath)
    (** make [d] the current directory of the process *)
| Spawn (argv : list string) (wd : apath) (hidden waited : bool)
    (** create a child process running [argv] in working directory [wd];
        [hidden]: without a console window; [waited]: the caller blocks
        until the child exits *)
| RunInProcess (file : apath) (run_name : string) (wd : apath)
    (** execute the Python code at [file] inside the calling interpreter,
        whose current directory is [wd] *).

(** One trace entry: the call and whether the system carried it out. *)
Record entry := { call : event; done_ok : bool }.

(** A script is a function on the state it runs over; it ends with a
    value or with an exception. *)
Definition M (St A : Type) : Type := St -> result A * St.

Definition ret {St A} (a : A) : M St A := fun s => (Ok a, s).

(** An exception nobody catches ends the script: what follows is skipped. *)
Definition bind {St A B} (m : M St A) (k : A -> M St B) : M St B :=
  fun s =>
    match m s with
    | (Ok a, s') => k a s'
    | (Raised e, s') => (Raised e, s')
    end.

Definition raise {St A} (e : exn) : M St A := fun s => (Raised e, s).

Notation "x <- m ;; k" := (bind m (fun x => k))
  (at level 100, m at next level, right associativity).
Notation "m ;; k" := (bind m (fun _ => k))
  (at level 100, right associativity).

(** The state of a launcher process, as the launcher's own statements
    leave it, and the calls the launcher has made. *)
Record proc := {
  cwd : apath;
  sys_path : list apath;
  trace : list entry
}.

Definition Script (A : Type) : Type := M proc A.

Definition log (ev : event) (ok : bool) : Script unit :=
  fun s => (Ok tt, {| cwd := cwd s; sys_path := sys_path s;
                      trace := trace s ++ [{| call := ev; done_ok := ok |}] |}).

Definition set_cwd (d : apath) : Script unit :=
  fun s => (Ok tt, {| cwd := d; sys_path := sys_path s; trace := trace s |}).

Definition get_cwd : Script apath := fun s => (Ok (cwd s), s).

Definition get_sys_path : Script (list apath) := fun s => (Ok (sys_path s), s).

Definition init (h : host) : proc :=
  {| cwd := h_cwd h; sys_path := h_sys_path h; trace := [] |}.

Definition run (launcher : host -> Script unit) (h : host) : result unit * proc :=
  launcher h (init h).

(** ** The library calls the launchers use *)

(** [os.path.abspath] reads the current directory of the process. *)
Definition os_path_abspath (h : host) (p : path) : Script apath :=
  d <- get_cwd ;; ret (abspath (on_windows h) d p).

Definition os_path_dirname (p : apath) : apath := dirname p.

Definition os_path_join (d : apath) (name : string) : apath := d // name.

(** [os.chdir(d)] raises when [d] is not an existing directory. *)
Definition os_chdir (h : host) (d : apath) : Script unit :=
  if h_is_dir h d then log (Chdir d) true ;; set_cwd d
  else log (Chdir d) false ;; raise (OSError "FileNotFoundError" d).

(** [sys.path.insert(0, d)]. *)
Definition sys_path_insert0 (d : apath) : Script unit :=
  fun s => (Ok tt, {| cwd := cwd s; sys_path := d :: sys_path s; trace := trace s |}).

Definition CREATE_NO_WINDOW : Z := 0x08000000.

(** [subprocess.Popen(argv, cwd=wd, creationflags=flags)]: the child is
    created and the call returns at once, without waiting for it; the call
    raises when [wd] is not an existing directory (NotADirectoryError on
    Windows, FileNotFoundError elsewhere). The launchers drop the returned
    handle, so it is not modelled. *)
Definition subprocess_Popen (h : host) (argv : list string) (wd : apath)
    (creationflags : Z) : Script unit :=
  let ev := Spawn argv wd (Z.testbit creationflags 27) false in
  if h_is_dir h wd then log ev true
  else log ev false ;;
       raise (OSError (if on_windows h then "NotADirectoryError"
                       else "FileNotFoundError") wd).

(** The application, run inside the calling interpreter, ends as the host
    says. What it does to the process while it runs is its own doing and
    is not recorded. *)
Definition main_ends (h : host) : Script unit := fun s => (h_main_ends h, s).

(** [runpy.run_path(file, run_name=name)]: a regular file is compiled
    and run inside the calling interpreter; of a directory, the
    [__main__.py] it holds is run, and the call raises ImportError when
    it holds none; the call raises FileNotFoundError when there is nothing
    at that name. An exception the code lets through comes out of the
    call. *)
Definition runpy_run_path (h : host) (file : apath) (run_name : string) : Script unit :=
  d <- get_cwd ;;
  let ev := RunInProcess file run_name d in
  if h_is_file h file then log ev true ;; main_ends h
  else if h_is_dir h file then
         if h_is_file h (file // "__main__.py") then log ev true ;; main_ends h
         else log ev false ;; raise (PyError "ImportError")
       else log ev false ;; raise (OSError "FileNotFoundError" file).

(** [WScript.ScriptFullName]: the full path of the running script. *)
Definition WScript_ScriptFullName (h : host) : apath := launcher_location h.

Definition fso_GetParentFolderName (p : apath) : apath := dirname p.

(** [WshShell.CurrentDirectory = d]. *)
Definition WshShell_set_CurrentDirectory (h : host) (d : apath) : Script unit :=
  if h_is_dir h d then log (Chdir d) true ;; set_cwd d
  else log (Chdir d) false ;; raise (WshRuntimeError "CurrentDirectory").

(** [WshShell.Run cmd, style, wait]: the command line is split at blanks,
    its first word is looked up through PATH, and the child inherits the
    current directory of the script host. Window style 0 hides the window. *)
Definition WshShell_Run (h : host) (cmd : string) (style : Z) (wait : bool) : Script unit :=
  d <- get_cwd ;;
  let argv := String.words cmd in
  let ev := Spawn argv d (style =? 0) wait in
  if h_on_path h (hd EmptyString argv) then log ev true
  else log ev false ;; raise (WshRuntimeError "Run").

(** ** The launchers *)

(** NIBOR_Recon.pyw *)
Definition NIBOR_Recon (h : host) : Script unit :=
  file <- os_path_abspath h (h_file h) ;;
  let script_dir := os_path_dirname file in
  subprocess_Popen h [h_executable h; "main.py"] script_dir
    (if String.eqb (h_platform h) "win32" then CREATE_NO_WINDOW else 0).

(** The launcher that "works from anywhere" (src/unnamed/part_000). *)
Definition project_dir (h : host) : apath :=
  h_home h // "OneDrive - Swedbank" // "GroupTreasury-ShortTermFunding - Documents"
           // "Samba" // "Samba" // "Gitnewnew".

Definition launcher_anywhere (h : host) : Script unit :=
  subprocess_Popen h [h_executable h; "main.py"] (project_dir h)
    (if String.eqb (h_platform h) "win32" then CREATE_NO_WINDOW else 0).

(** The console-less Windows launcher built on runpy (src/unnamed/part_001). *)
Definition launcher_runpy (h : host) : Script unit :=
  file <- os_path_abspath h (h_file h) ;;
  let script_dir := os_path_dirname file in
  os_chdir h script_dir ;;
  sp <- get_sys_path ;;
  (if bool_decide (script_dir ∈ sp) then ret tt else sys_path_insert0 script_dir) ;;
  runpy_run_path h (os_path_join script_dir "main.py") "__main__".

(** start_nibor.vbs *)
Definition start_nibor (h : host) : Script unit :=
  let scriptDir := fso_GetParentFolderName (WScript_ScriptFullName h) in
  WshShell_set_CurrentDirectory h scriptDir ;;
  WshShell_Run h "pythonw main.py" 0 false.

(** ** The shortcut batch file *)

(** A Windows shortcut, with the properties the script host exposes. *)
Record shortcut := {
  TargetPath : string;
  WorkingDirectory : string;
  Description : string;
  IconLocation : string;
  Arguments : string
}.

Definition blank_shortcut : shortcut :=
  {| TargetPath := EmptyString; WorkingDirectory := EmptyString;
     Description := EmptyString; IconLocation := EmptyString;
     Arguments := EmptyString |}.

(** The lines the batch file writes into its temporary script, one
    constructor per line; the carried string is the text between the
    quotes after the variables of the batch file are expanded (a Windows
    file name holds no double quote, so that text is the whole literal). *)
Inductive vbs_line :=
| Set_oWS                              (** Set oWS = WScript.CreateObject("WScript.Shell") *)
| Let_sLinkFile (s : string)           (** sLinkFile = "s" *)
| Set_oLink                            (** Set oLink = oWS.CreateShortcut(sLinkFile) *)
| oLink_TargetPath (s : string)        (** oLink.TargetPath = "s" *)
| oLink_WorkingDirectory (s : string)  (** oLink.WorkingDirectory = "s" *)
| oLink_Description (s : string)       (** oLink.Description = "s" *)
| oLink_IconLocation (s : string)      (** oLink.IconLocation = "s" *)
| oLink_Save.                          (** oLink.Save *)

Inductive file :=
| VbsFile (lines : list vbs_line)
| LnkFile (sc : shortcut)
| OtherFile (content : string).

(** The file store (full path names as keys) and the console. The
    directories the batch file writes into, %TEMP% and the Desktop of the
    profile, are taken to exist. *)
Record store := {
  files : gmap string file;
  shown : list string
}.

Definition Bat (A : Type) : Type := M store A.

(** What the batch file reads from its environment. *)
Record bat_env := {
  dp0 : string;                  (** %~dp0: drive and directory of the batch
                                     file, ending in a backslash *)
  USERPROFILE : string;
  TEMP : string;
  PATH_search : string -> string (** %%~$PATH:I: the full name of the first
                                     match on PATH, empty when there is none *)
}.

Definition set_files (f : gmap string file) : Bat unit :=
  fun s => (Ok tt, {| files := f; shown := shown s |}).

Definition get_files : Bat (gmap string file) := fun s => (Ok (files s), s).

(** [echo text] *)
Definition echo (text : string) : Bat unit :=
  fun s => (Ok tt, {| files := files s; shown := shown s ++ [text] |}).

(** [echo line > "name"]: the file is created or truncated. *)
Definition echo_to (name : string) (line : vbs_line) : Bat unit :=
  f <- get_files ;; set_files (<[name := VbsFile [line]]> f).

(** [echo line >> "name"]: the line is added at the end; the file is
    created when it is missing. *)
Definition echo_append (name : string) (line : vbs_line) : Bat unit :=
  f <- get_files ;;
  match f !! name with
  | Some (VbsFile l) => set_files (<[name := VbsFile (l ++ [line])]> f)
  | Some _ => set_files (<[name := OtherFile "mixed content"]> f)
  | None => set_files (<[name := VbsFile [line]]> f)
  end.

(** [if exist "name"] *)
Definition exist (name : string) : Bat bool :=
  f <- get_files ;; ret (bool_decide (is_Some (f !! name))).

(** [del "name"] *)
Definition del (name : string) : Bat unit :=
  f <- get_files ;;
  match f !! name with
  | Some _ => set_files (delete name f)
  | None => echo ("Could Not Find " +:+ name)
  end.

(** [pause] *)
Definition pause : Bat unit := echo "Press any key to continue . . . ".

(** The script host running a temporary script: its variables, and the
    file store it saves into. *)
Record wsh := {
  oWS : bool;
  sLinkFile : option string;
  oLink : option (string * shortcut)
}.

Definition wsh_init : wsh := {| oWS := false; sLinkFile := None; oLink := None |}.

Definition on_link (g : shortcut -> shortcut) (w : wsh) (f : gmap string file)
    : option (wsh * gmap string file) :=
  match oLink w with
  | Some (p, sc) => Some ({| oWS := oWS w; sLinkFile := sLinkFile w; oLink := Some (p, g sc) |}, f)
  | None => None
  end.

(** One statement; [None] is a run-time error, which stops the script.
    [CreateShortcut] opens the shortcut at that name when there is one and
    starts from a blank one otherwise; [Save] writes it. *)
Definition wsh_step (l : vbs_line) (w : wsh) (f : gmap string file)
    : option (wsh * gmap string file) :=
  match l with
  | Set_oWS => Some ({| oWS := true; sLinkFile := sLinkFile w; oLink := oLink w |}, f)
  | Let_sLinkFile s => Some ({| oWS := oWS w; sLinkFile := Some s; oLink := oLink w |}, f)
  | Set_oLink =>
      match oWS w, sLinkFile w with
      | true, Some p =>
          let sc := match f !! p with Some (LnkFile sc) => sc | _ => blank_shortcut end in
          Some ({| oWS := true; sLinkFile := Some p; oLink := Some (p, sc) |}, f)
      | _, _ => None
      end
  | oLink_TargetPath s =>
      on_link (fun sc => {| TargetPath := s; WorkingDirectory := WorkingDirectory sc;
                            Description := Description sc; IconLocation := IconLocation sc;
                            Arguments := Arguments sc |}) w f
  | oLink_WorkingDirectory s =>
      on_link (fun sc => {| TargetPath := TargetPath sc; WorkingDirectory := s;
                            Description := Description sc; IconLocation := IconLocation sc;
                            Arguments := Arguments sc |}) w f
  | oLink_Description s =>
      on_link (fun sc => {| TargetPath := TargetPath sc; WorkingDirectory := WorkingDirectory sc;
                            Description := s; IconLocation := IconLocation sc;
                            Arguments := Arguments sc |}) w f
  | oLink_IconLocation s =>
      on_link (fun sc => {| TargetPath := TargetPath sc; WorkingDirectory := WorkingDirectory sc;
                            Description := Description sc; IconLocation := s;
                            Arguments := Arguments sc |}) w f
  | oLink_Save =>
      match oLink w with
      | Some (p, sc) => Some (w, <[p := LnkFile sc]> f)
      | None => None
      end
  end.

(** The statements in order; the second component tells whether the
    script ran to its end. What was saved before an error stays saved. *)
Fixpoint wsh_run (prog : list vbs_line) (w : wsh) (f : gmap string file)
    : gmap string file * bool :=
  match prog with
  | [] => (f, true)
  | l :: prog' =>
      match wsh_step l w f with
      | Some (w', f') => wsh_run prog' w' f'
      | None => (f, false)
      end
  end.

(** [cscript //nologo "name"]: the batch file waits for the script host and
    goes on with its next line whatever the outcome. *)
Definition cscript (name : string) : Bat unit :=
  f <- get_files ;;
  match f !! name with
  | Some (VbsFile prog) =>
      let '(f', ok) := wsh_run prog wsh_init f in
      set_files f' ;;
      (if ok then ret tt else echo "Microsoft VBScript runtime error")
  | _ => echo "Input Error: There is no script engine for the file"
  end.

(** create_shortcut.bat (src/unnamed/part_002) *)
Definition dq : string := String (ascii_of_nat 34) EmptyString.

Definition create_shortcut (e : bat_env) : Bat unit :=
  let SCRIPT_DIR := dp0 e in
  let SHORTCUT_NAME := "NIBOR Terminal" in
  let DESKTOP := USERPROFILE e +:+ "\Desktop" in
  let vbs := TEMP e +:+ "\CreateShortcut.vbs" in
  echo_to vbs Set_oWS ;;
  echo_append vbs (Let_sLinkFile (DESKTOP +:+ "\" +:+ SHORTCUT_NAME +:+ ".lnk")) ;;
  echo_append vbs Set_oLink ;;
  echo_append vbs (oLink_TargetPath (SCRIPT_DIR +:+ "start_nibor.vbs")) ;;
  echo_append vbs (oLink_WorkingDirectory SCRIPT_DIR) ;;
  echo_append vbs (oLink_Description "NIBOR Calculation Terminal") ;;
  has_icon <- exist (SCRIPT_DIR +:+ "assets\icon.ico") ;;
  (if has_icon
   then echo_append vbs (oLink_IconLocation (SCRIPT_DIR +:+ "assets\icon.ico"))
   else echo_append vbs (oLink_IconLocation (PATH_search e "pythonw.exe"))) ;;
  echo_append vbs oLink_Save ;;
  cscript vbs ;;
  del vbs ;;
  echo EmptyString ;;
  echo "========================================" ;;
  echo " Shortcut created on Desktop!" ;;
  echo (" Look for " +:+ dq +:+ "NIBOR Terminal" +:+ dq +:+ " icon") ;;
  echo "========================================" ;;
  echo EmptyString ;;
  pause.

Definition run_bat (e : bat_env) (f : gmap string file) : result unit * store :=
  create_shortcut e {| files := f; shown := [] |}.

(** ** What is observed of a launcher run *)

Inductive launcher :=
| NIBOR_Recon_pyw     (** src/NIBOR_Recon.pyw *)
| part_000            (** the launcher that works from anywhere *)
| part_001            (** the runpy launcher *)
| start_nibor_vbs.    (** src/start_nibor.vbs *)

Definition code (l : launcher) : host -> Script unit :=
  match l with
  | NIBOR_Recon_pyw => NIBOR_Recon
  | part_000 => launcher_anywhere
  | part_001 => launcher_runpy
  | start_nibor_vbs => start_nibor
  end.

(** The directory each launcher runs the application in. *)
Definition app_dir (l : launcher) (h : host) : apath :=
  match l with
  | part_000 => project_dir h
  | _ => dirname (launcher_location h)
  end.

Definition script_relative (l : launcher) : bool :=
  match l with
  | part_000 => false
  | _ => true
  end.

(** The calls a run issued, in order, carried out or not. *)
Definition calls (r : result unit * proc) : list event := map call (trace (snd r)).

(** The calls the system carried out. *)
Definition carried_out (r : result unit * proc) : list event :=
  map call (List.filter done_ok (trace (snd r))).

Definition is_launch (ev : event) : bool :=
  match ev with
  | Chdir _ => false
  | Spawn _ _ _ _ | RunInProcess _ _ _ => true
  end.

Definition is_spawn (ev : event) : bool :=
  match ev with
  | Spawn _ _ _ _ => true
  | _ => false
  end.

(** The requests to start a program, and those that succeeded. *)
Definition launch_calls (r : result unit * proc) : list event :=
  List.filter is_launch (calls r).

Definition started (r : result unit * proc) : list event :=
  List.filter is_launch (carried_out r).

(** The working directory a launch gives to the program it starts. *)
Definition workdir_of (ev : event) : option apath :=
  match ev with
  | Spawn _ wd _ _ => Some wd
  | RunInProcess _ _ wd => Some wd
  | Chdir _ => None
  end.

(** The script file a launch makes the interpreter execute: a child
    resolves its script argument against its working directory. *)
Definition script_of (ev : event) : option apath :=
  match ev with
  | Spawn (_ :: arg :: _) wd _ _ => Some (wd // arg)
  | RunInProcess file _ _ => Some file
  | _ => None
  end.

Definition is_python (h : host) (prog : string) : bool :=
  String.eqb prog (h_executable h) || String.eqb prog "pythonw".

(** [ev] starts main.py of directory [d], in [d], through Python. *)
Definition runs_main_py_in (h : host) (d : apath) (ev : event) : bool :=
  match ev with
  | Spawn [prog; arg] wd _ _ =>
      is_python h prog && String.eqb arg "main.py" && bool_decide (wd = d)
  | RunInProcess file _ wd =>
      bool_decide (file = d // "main.py") && bool_decide (wd = d)
  | _ => false
  end.

(** The started program finds its script. *)
Definition finds_script (h : host) (ev : event) : bool :=
  match script_of ev with
  | Some f => h_is_file h f
  | None => false
  end.

(** A launch of main.py that the launcher does not wait for. *)
Definition detached_main_py (h : host) (d : apath) (ev : event) : bool :=
  runs_main_py_in h d ev
  && match ev with
     | Spawn _ _ _ waited => negb waited
     | _ => true
     end.

(** Launcher glue: entering the application directory, starting main.py. *)
Definition is_glue (h : host) (d : apath) (ev : event) : bool :=
  match ev with
  | Chdir d' => bool_decide (d' = d)
  | _ => runs_main_py_in h d ev
  end.

(** The request each launcher makes to start the application. *)
Definition launch_event (l : launcher) (h : host) : event :=
  match l with
  | NIBOR_Recon_pyw | part_000 =>
      Spawn [h_executable h; "main.py"] (app_dir l h) (on_windows h) false
  | part_001 =>
      RunInProcess (app_dir l h // "main.py") "__main__" (app_dir l h)
  | start_nibor_vbs =>
      Spawn ["pythonw"; "main.py"] (app_dir l h) true false
  end.

(** The same host with another file system. *)
Definition with_fs (h : host) (is_dir is_file : apath -> bool) : host :=
  {| h_cwd := h_cwd h; h_file := h_file h; h_home := h_home h;
     h_executable := h_executable h; h_platform := h_platform h;
     h_sys_path := h_sys_path h; h_is_dir := is_dir; h_is_file := is_file;
     h_on_path := h_on_path h; h_console := h_console h;
     h_main_ends := h_main_ends h |}.

(** The same launcher file, invoked from directory [d] under the name [p]. *)
Definition invoked_from (h : host) (d : apath) (p : path) : host :=
  {| h_cwd := d; h_file := p; h_home := h_home h;
     h_executable := h_executable h; h_platform := h_platform h;
     h_sys_path := h_sys_path h; h_is_dir := h_is_dir h; h_is_file := h_is_file h;
     h_on_path := h_on_path h; h_console := h_console h;
     h_main_ends := h_main_ends h |}.

(** [runpy.run_path] finds code to run at [file]: a regular file, or a
    directory that holds [__main__.py]. *)
Definition can_run_path (h : host) (file : apath) : bool :=
  h_is_file h file || (h_is_dir h file && h_is_file h (file // "__main__.py")).

(** The exception of [runpy.run_path] when it finds none. *)
Definition run_path_error (h : host) (file : apath) : exn :=
  if h_is_dir h file then PyError "ImportError"
  else OSError "FileNotFoundError" file.

(** The report of an error nobody has handled: the traceback of the
    interpreter, or the error text of the script host. *)
Definition error_text (x : exn) : string :=
  match x with
  | OSError what _ => "Traceback (most recent call last): " +:+ what
  | PyError what => "Traceback (most recent call last): " +:+ what
  | WshRuntimeError what => "Windows Script Host: " +:+ what
  end.

(** What is written when a script ends: nothing after a normal end, the
    report of the error otherwise, where there is an error stream. *)
Definition exit_report (h : host) (r : result unit) : list string :=
  match r with
  | Ok _ => []
  | Raised x => if h_console h then [error_text x] else []
  end.

(** What a child writes when it finds no code to run at its script
    argument: one line, where it has an error stream (it inherits that of
    the launcher, and has none when it is created hidden). *)
Definition child_report (h : host) (ev : event) : list string :=
  match ev with
  | Spawn _ _ hidden _ =>
      match script_of ev with
      | Some f => if can_run_path h f || hidden || negb (h_console h) then []
                  else ["python: can't open file " +:+ "main.py"]
      | None => []
      end
  | _ => []
  end.

(** Everything a run of a launcher causes to be printed, the application's
    own output apart. *)
Definition messages (h : host) (r : result unit * proc) : list string :=
  exit_report h (fst r) ++ flat_map (child_report h) (started r).

(** ** What is observed of a run of the batch file *)

(** The names the batch file works with. *)
Definition vbs_name (e : bat_env) : string := TEMP e +:+ "\CreateShortcut.vbs".

Definition lnk_name (e : bat_env) : string :=
  (USERPROFILE e +:+ "\Desktop") +:+ "\" +:+ "NIBOR Terminal" +:+ ".lnk".

Definition icon_name (e : bat_env) : string := dp0 e +:+ "assets\icon.ico".

(** The icon the shortcut gets, given the files present at the start. *)
Definition chosen_icon (e : bat_env) (f : gmap string file) : string :=
  if bool_decide (is_Some (f !! icon_name e))
  then dp0 e +:+ "assets\icon.ico"
  else PATH_search e "pythonw.exe".

(** The shortcut the run saves: a shortcut already at that name keeps the
    properties the script does not set. *)
Definition made_shortcut (e : bat_env) (f : gmap string file) : shortcut :=
  {| TargetPath := dp0 e +:+ "start_nibor.vbs";
     WorkingDirectory := dp0 e;
     Description := "NIBOR Calculation Terminal";
     IconLocation := chosen_icon e f;
     Arguments := match f !! lnk_name e with
                  | Some (LnkFile sc) => Arguments sc
                  | _ => EmptyString
                  end |}.

Definition banner : list string :=
  [EmptyString;
   "========================================";
   " Shortcut created on Desktop!";
   " Look for " +:+ dq +:+ "NIBOR Terminal" +:+ dq +:+ " icon";
   "========================================";
   EmptyString;
   "Press any key to continue . . . "].

(** The last character of a name. *)
Fixpoint last_char (s : string) : option ascii :=
  match s with
  | EmptyString => None
  | String c EmptyString => Some c
  | String _ s' => last_char s'
  end.

(** The temporary script as it stands when the script host is started. *)
Definition written_script (e : bat_env) (f : gmap string file) : list vbs_line :=
  [Set_oWS;
   Let_sLinkFile (lnk_name e);
   Set_oLink;
   oLink_TargetPath (dp0 e +:+ "start_nibor.vbs");
   oLink_WorkingDirectory (dp0 e);
   oLink_Description "NIBOR Calculation Terminal";
   oLink_IconLocation (chosen_icon e f);
   oLink_Save].

(** ** Further observations *)

(** A component that [normpath] keeps as it is. *)
Definition clean_component (c : string) : bool :=
  negb (String.eqb c "." || String.eqb c EmptyString) && negb (String.eqb c "..").

(** The launcher ended without an error. *)
Definition is_ok (r : result unit) : bool :=
  match r with
  | Ok _ => true
  | Raised _ => false
  end.

(** The run started one program, and that program found its script. *)
Definition app_runs (h : host) (r : result unit * proc) : bool :=
  match started r with
  | [ev] => finds_script h ev
  | _ => false
  end.

(** The components of a Windows file name, cut at the backslashes. *)
Fixpoint split_path (s : string) : list string :=
  match s with
  | EmptyString => [EmptyString]
  | String c s' =>
      if Ascii.eqb c "\"
      then EmptyString :: split_path s'
      else match split_path s' with
           | [] => [String c EmptyString]
           | w :: ws => String c w :: ws
           end
  end.

(** Opening a shortcut whose target is a script: the script host is started
    on the target, with the working directory of the shortcut as current
    directory; this happens on Windows, on the machine [h0]. *)
Definition open_shortcut (sc : shortcut) (h0 : host) : host :=
  {| h_cwd := normpath (split_path (WorkingDirectory sc));
     h_file := Abs (split_path (TargetPath sc));
     h_home := h_home h0; h_executable := h_executable h0;
     h_platform := "win32"; h_sys_path := h_sys_path h0;
     h_is_dir := h_is_dir h0; h_is_file := h_is_file h0;
     h_on_path := h_on_path h0; h_console := h_console h0;
     h_main_ends := h_main_ends h0 |}.

(** ** Sample hosts *)

(** A launcher kept in /home/u/proj, started from the home directory under
    a relative name; nothing else exists, in particular no main.py. *)
Definition host_home : host :=
  {| h_cwd := ["home"; "u"];
     h_file := Rel ["proj"; "launcher.pyw"];
     h_home := ["home"; "u"];
     h_executable := "/usr/bin/python3";
     h_platform := "linux";
     h_sys_path := [];
     h_is_dir := fun d => bool_decide (d = ["home"; "u"; "proj"]);
     h_is_file := fun _ => false;
     h_on_path := fun _ => true;
     h_console := true;
     h_main_ends := Ok tt |}.

(** The same launcher started from /tmp under its full name. *)
Definition host_tmp : host :=
  invoked_from host_home ["tmp"] (Abs ["home"; "u"; "proj"; "launcher.pyw"]).

(** A Windows profile for the batch file. *)
Definition sample_env : bat_env :=
  {| dp0 := "C:\proj\";
     USERPROFILE := "C:\Users\u";
     TEMP := "C:\Temp";
     PATH_search := fun _ => "C:\Py\pythonw.exe" |}.

(** A Windows machine with the project in C:\proj, main.py included. *)
Definition host_win : host :=
  {| h_cwd := ["C:"; "Users"; "u"];
     h_file := Abs ["C:"; "proj"; "start_nibor.vbs"];
     h_home := ["C:"; "Users"; "u"];
     h_executable := "C:\Py\pythonw.exe";
     h_platform := "win32";
     h_sys_path := [["C:"; "Py"; "Lib"]];
     h_is_dir := fun d => bool_decide (d = ["C:"; "proj"]);
     h_is_file := fun p => bool_decide (p = ["C:"; "proj"; "main.py"]);
     h_on_path := fun n => String.eqb n "pythonw";
     h_console := false;
     h_main_ends := Ok tt |}.

(** A launcher kept in the project directory under the home directory. *)
Definition host_deployed : host :=
  {| h_cwd := ["tmp"];
     h_file := Abs (project_dir host_home // "launcher.pyw");
     h_home := ["home"; "u"];
     h_executable := "/usr/bin/python3";
     h_platform := "linux";
     h_sys_path := [];
     h_is_dir := fun d => bool_decide (d = project_dir host_home);
     h_is_file := fun _ => true;
     h_on_path := fun _ => true;
     h_console := true;
     h_main_ends := Ok tt |}.

(** The project of [host_win] seen from another launcher of the same
    directory, NIBOR_Recon.pyw, whose application fails at start-up. *)
Definition host_win_pyw : host :=
  {| h_cwd := ["C:"; "Users"; "u"; "Desktop"];
     h_file := Abs ["C:"; "proj"; "NIBOR_Recon.pyw"];
     h_home := ["C:"; "Users"; "u"];
     h_executable := "C:\Py\pythonw.exe";
     h_platform := "win32";
     h_sys_path := [["C:"; "Py"; "Lib"]];
     h_is_dir := fun d => bool_decide (d = ["C:"; "proj"]);
     h_is_file := fun p => bool_decide (p = ["C:"; "proj"; "main.py"]);
     h_on_path := fun n => String.eqb n "pythonw";
     h_console := false;
     h_main_ends := Raised (PyError "ModuleNotFoundError") |}.

(** ** The runs of the four launchers, in closed form *)

Lemma creationflags_hidden (h : host) :
  Z.testbit (if String.eqb (h_platform h) "win32" then CREATE_NO_WINDOW else 0) 27
  = on_windows h.
Proof. unfold on_windows. destruct (String.eqb _ _); reflexivity. Qed.

Lemma is_python_executable (h : host) : is_python h (h_executable h) = true.
Proof. unfold is_python. rewrite String.eqb_refl. reflexivity. Qed.

Lemma NIBOR_Recon_run (h : host) :
  let d := dirname (launcher_location h) in
  let ev := Spawn [h_executable h; "main.py"] d (on_windows h) false in
  run NIBOR_Recon h =
    if h_is_dir h d
    then (Ok tt, {| cwd := h_cwd h; sys_path := h_sys_path h;
                    trace := [{| call := ev; done_ok := true |}] |})
    else (Raised (OSError (if on_windows h then "NotADirectoryError"
                           else "FileNotFoundError") d),
          {| cwd := h_cwd h; sys_path := h_sys_path h;
             trace := [{| call := ev; done_ok := false |}] |}).
Proof.
  cbv zeta. unfold run, NIBOR_Recon, subprocess_Popen, os_path_abspath, bind, get_cwd, ret.
  cbn [init cwd]. unfold os_path_dirname. rewrite creationflags_hidden.
  fold (launcher_location h).
  destruct (h_is_dir h (dirname (launcher_location h))); reflexivity.
Qed.

Lemma launcher_anywhere_run (h : host) :
  let d := project_dir h in
  let ev := Spawn [h_executable h; "main.py"] d (on_windows h) false in
  run launcher_anywhere h =
    if h_is_dir h d
    then (Ok tt, {| cwd := h_cwd h; sys_path := h_sys_path h;
                    trace := [{| call := ev; done_ok := true |}] |})
    else (Raised (OSError (if on_windows h then "NotADirectoryError"
                           else "FileNotFoundError") d),
          {| cwd := h_cwd h; sys_path := h_sys_path h;
             trace := [{| call := ev; done_ok := false |}] |}).
Proof.
  cbv zeta. unfold run, launcher_anywhere, subprocess_Popen.
  rewrite creationflags_hidden.
  destruct (h_is_dir h (project_dir h)); reflexivity.
Qed.

Lemma launcher_runpy_run (h : host) :
  let d := dirname (launcher_location h) in
  let sp := if bool_decide (d ∈ h_sys_path h) then h_sys_path h else d :: h_sys_path h in
  let ev := RunInProcess (d // "main.py") "__main__" d in
  run launcher_runpy h =
    if h_is_dir h d
    then if can_run_path h (d // "main.py")
         then (h_main_ends h,
               {| cwd := d; sys_path := sp;
                  trace := [{| call := Chdir d; done_ok := true |};
                            {| call := ev; done_ok := true |}] |})
         else (Raised (run_path_error h (d // "main.py")),
               {| cwd := d; sys_path := sp;
                  trace := [{| call := Chdir d; done_ok := true |};
                            {| call := ev; done_ok := false |}] |})
    else (Raised (OSError "FileNotFoundError" d),
          {| cwd := h_cwd h; sys_path := h_sys_path h;
             trace := [{| call := Chdir d; done_ok := false |}] |}).
Proof.
  cbv zeta. unfold run, launcher_runpy, os_path_abspath, os_chdir, runpy_run_path,
    get_sys_path, bind, get_cwd, ret, can_run_path, run_path_error, main_ends.
  cbn [init cwd]. unfold os_path_dirname, os_path_join. fold (launcher_location h).
  destruct (h_is_dir h (dirname (launcher_location h))); [|reflexivity].
  cbn. destruct (bool_decide _); cbn;
    destruct (h_is_file h (dirname (launcher_location h) // "main.py")); cbn;
    try reflexivity;
    destruct (h_is_dir h (dirname (launcher_location h) // "main.py")); cbn;
    try reflexivity;
    destruct (h_is_file h _); reflexivity.
Qed.

Lemma start_nibor_run (h : host) :
  let d := dirname (launcher_location h) in
  let ev := Spawn ["pythonw"; "main.py"] d true false in
  run start_nibor h =
    if h_is_dir h d
    then if h_on_path h "pythonw"
         then (Ok tt, {| cwd := d; sys_path := h_sys_path h;
                         trace := [{| call := Chdir d; done_ok := true |};
                                   {| call := ev; done_ok := true |}] |})
         else (Raised (WshRuntimeError "Run"),
               {| cwd := d; sys_path := h_sys_path h;
                  trace := [{| call := Chdir d; done_ok := true |};
                            {| call := ev; done_ok := false |}] |})
    else (Raised (WshRuntimeError "CurrentDirectory"),
          {| cwd := h_cwd h; sys_path := h_sys_path h;
             trace := [{| call := Chdir d; done_ok := false |}] |}).
Proof.
  cbv zeta. unfold run, start_nibor, WshShell_set_CurrentDirectory, WshShell_Run,
    fso_GetParentFolderName, WScript_ScriptFullName, bind, get_cwd.
  destruct (h_is_dir h (dirname (launcher_location h))); [|reflexivity].
  cbn. destruct (h_on_path h "pythonw"); reflexivity.
Qed.

(** ** The run of the batch file, in closed form *)

(** Two names that end in different characters are different. *)
Lemma last_char_app (a b : string) :
  b <> EmptyString -> last_char (a +:+ b) = last_char b.
Proof.
  intros Hb. induction a as [|c a IH]; [reflexivity|].
  change (String c a +:+ b) with (String c (a +:+ b)).
  destruct (a +:+ b) eqn:E.
  - destruct a; [elim Hb; exact E | discriminate E].
  - rewrite <- IH. reflexivity.
Qed.

Lemma vbs_name_last (e : bat_env) : last_char (vbs_name e) = Some "s"%char.
Proof. unfold vbs_name. rewrite last_char_app; [reflexivity | discriminate]. Qed.

Lemma lnk_name_last (e : bat_env) : last_char (lnk_name e) = Some "k"%char.
Proof. unfold lnk_name. rewrite last_char_app; [reflexivity | discriminate]. Qed.

Lemma icon_name_last (e : bat_env) : last_char (icon_name e) = Some "o"%char.
Proof. unfold icon_name. rewrite last_char_app; [reflexivity | discriminate]. Qed.

Lemma vbs_name_not_lnk (e : bat_env) : vbs_name e <> lnk_name e.
Proof.
  intros E. apply (f_equal last_char) in E.
  rewrite vbs_name_last, lnk_name_last in E. discriminate.
Qed.

Lemma vbs_name_not_icon (e : bat_env) : vbs_name e <> icon_name e.
Proof.
  intros E. apply (f_equal last_char) in E.
  rewrite vbs_name_last, icon_name_last in E. discriminate.
Qed.

Lemma append_assoc (a b c : string) : (a +:+ b) +:+ c = a +:+ (b +:+ c).
Proof.
  induction a as [|x a IH]; [reflexivity|].
  change (String x ((a +:+ b) +:+ c) = String x (a +:+ (b +:+ c))).
  rewrite IH. reflexivity.
Qed.

Lemma lnk_name_on_desktop (e : bat_env) :
  lnk_name e = USERPROFILE e +:+ "\Desktop\NIBOR Terminal.lnk".
Proof. unfold lnk_name. rewrite append_assoc. reflexivity. Qed.

(** Stepping through the batch file. *)
Lemma bind_ok {St A B} (m : M St A) (k : A -> M St B) (s s' : St) (a : A) :
  m s = (Ok a, s') -> bind m k s = k a s'.
Proof. intros E. unfold bind. rewrite E. reflexivity. Qed.

Lemma echo_to_ok (name : string) (line : vbs_line) (f : gmap string file) (sh : list string) :
  echo_to name line {| files := f; shown := sh |}
  = (Ok tt, {| files := <[name := VbsFile [line]]> f; shown := sh |}).
Proof. reflexivity. Qed.

Lemma echo_append_ok (name : string) (line : vbs_line) (l : list vbs_line)
    (f : gmap string file) (sh : list string) :
  echo_append name line {| files := <[name := VbsFile l]> f; shown := sh |}
  = (Ok tt, {| files := <[name := VbsFile (l ++ [line])]> f; shown := sh |}).
Proof.
  unfold echo_append, bind, get_files. cbn [files].
  rewrite lookup_insert_eq. unfold set_files. cbn [shown].
  rewrite insert_insert_eq. reflexivity.
Qed.

Lemma exist_ok (name : string) (f : gmap string file) (sh : list string) :
  exist name {| files := f; shown := sh |}
  = (Ok (bool_decide (is_Some (f !! name))), {| files := f; shown := sh |}).
Proof. reflexivity. Qed.

Lemma del_ok (name : string) (x : file) (f : gmap string file) (sh : list string) :
  f !! name = Some x ->
  del name {| files := f; shown := sh |}
  = (Ok tt, {| files := delete name f; shown := sh |}).
Proof.
  intros E. unfold del, bind, get_files. cbn [files]. rewrite E. reflexivity.
Qed.

Lemma wsh_run_written (e : bat_env) (f g : gmap string file) :
  g !! lnk_name e = f !! lnk_name e ->
  wsh_run (written_script e f) wsh_init g
  = (<[lnk_name e := LnkFile (made_shortcut e f)]> g, true).
Proof.
  intros E. unfold written_script, made_shortcut.
  cbn [wsh_run wsh_step wsh_init oWS sLinkFile oLink on_link].
  rewrite E. destruct (f !! lnk_name e) as [[l|sc|c]|]; reflexivity.
Qed.

Lemma cscript_ok (e : bat_env) (f g : gmap string file) (sh : list string) :
  g !! vbs_name e = Some (VbsFile (written_script e f)) ->
  g !! lnk_name e = f !! lnk_name e ->
  cscript (vbs_name e) {| files := g; shown := sh |}
  = (Ok tt, {| files := <[lnk_name e := LnkFile (made_shortcut e f)]> g; shown := sh |}).
Proof.
  intros Ev El. unfold cscript, bind, get_files. cbn [files]. rewrite Ev.
  rewrite (wsh_run_written e f g El). reflexivity.
Qed.

Lemma run_bat_closed (e : bat_env) (f : gmap string file) :
  run_bat e f
  = (Ok tt, {| files := <[lnk_name e := LnkFile (made_shortcut e f)]> (delete (vbs_name e) f);
               shown := banner |}).
Proof.
  unfold run_bat, create_shortcut. cbv zeta.
  fold (vbs_name e). fold (lnk_name e). fold (icon_name e).
  erewrite bind_ok by apply echo_to_ok.
  do 5 (erewrite bind_ok by apply echo_append_ok).
  erewrite bind_ok by apply exist_ok.
  rewrite lookup_insert_ne by apply vbs_name_not_icon.
  assert (Hicon : forall l sh,
    (if bool_decide (is_Some (f !! icon_name e))
     then echo_append (vbs_name e) (oLink_IconLocation (icon_name e))
     else echo_append (vbs_name e) (oLink_IconLocation (PATH_search e "pythonw.exe")))
      {| files := <[vbs_name e := VbsFile l]> f; shown := sh |}
    = (Ok tt, {| files := <[vbs_name e := VbsFile (l ++ [oLink_IconLocation (chosen_icon e f)])]> f;
                 shown := sh |})).
  { intros l sh. unfold chosen_icon. fold (icon_name e).
    destruct (bool_decide _); apply echo_append_ok. }
  erewrite bind_ok by apply Hicon.
  erewrite bind_ok by apply echo_append_ok.
  cbn [app].
  erewrite bind_ok.
  2:{ apply (cscript_ok e f).
      - apply lookup_insert_eq.
      - apply lookup_insert_ne, vbs_name_not_lnk. }
  erewrite bind_ok.
  2:{ eapply del_ok. rewrite lookup_insert_ne by (apply not_eq_sym, vbs_name_not_lnk).
      apply lookup_insert_eq. }
  rewrite delete_insert_ne by (apply vbs_name_not_lnk).
  rewrite delete_insert_eq.
  reflexivity.
Qed.

(** ** Properties of the launchers *)

Lemma is_python_pythonw (h : host) : is_python h "pythonw" = true.
Proof. unfold is_python. apply orb_true_r. Qed.

Lemma runs_main_py_in_spawn (h : host) (d : apath) (prog : string) (hid w : bool) :
  is_python h prog = true ->
  runs_main_py_in h d (Spawn [prog; "main.py"] d hid w) = true.
Proof.
  intros Hp. unfold runs_main_py_in. rewrite Hp.
  rewrite bool_decide_eq_true_2 by reflexivity. reflexivity.
Qed.

Lemma runs_main_py_in_process (h : host) (d : apath) (name : string) :
  runs_main_py_in h d (RunInProcess (d // "main.py") name d) = true.
Proof.
  unfold runs_main_py_in.
  rewrite !bool_decide_eq_true_2 by reflexivity. reflexivity.
Qed.

Lemma launch_event_runs_main (l : launcher) (h : host) :
  runs_main_py_in h (app_dir l h) (launch_event l h) = true
  /\ workdir_of (launch_event l h) = Some (app_dir l h)
  /\ script_of (launch_event l h) = Some (app_dir l h // "main.py").
Proof.
  destruct l; cbn [launch_event]; repeat split.
  - apply runs_main_py_in_spawn, is_python_executable.
  - apply runs_main_py_in_spawn, is_python_executable.
  - apply runs_main_py_in_process.
  - apply runs_main_py_in_spawn, is_python_pythonw.
Qed.

(** The one request of a launcher whose own directory exists. *)
Lemma launch_calls_present (l : launcher) (h : host) :
  launcher_present h ->
  launch_calls (run (code l) h) = [launch_event l h].
Proof.
  unfold launcher_present. intros Hp. destruct l; cbn [code launch_event app_dir].
  - rewrite NIBOR_Recon_run. cbv zeta. rewrite Hp. reflexivity.
  - rewrite launcher_anywhere_run. cbv zeta.
    destruct (h_is_dir h (project_dir h)); reflexivity.
  - rewrite launcher_runpy_run. cbv zeta. rewrite Hp.
    destruct (can_run_path h _); reflexivity.
  - rewrite start_nibor_run. cbv zeta. rewrite Hp.
    destruct (h_on_path h "pythonw"); reflexivity.
Qed.

(** On a host that has the application directory, its main.py and
    pythonw, the request is carried out. *)
Lemma started_healthy (l : launcher) (h : host) :
  h_is_dir h (app_dir l h) = true ->
  h_is_file h (app_dir l h // "main.py") = true ->
  h_on_path h "pythonw" = true ->
  started (run (code l) h) = [launch_event l h].
Proof.
  intros Hd Hf Hp. destruct l; cbn [code launch_event app_dir] in *.
  - rewrite NIBOR_Recon_run. cbv zeta. rewrite Hd. reflexivity.
  - rewrite launcher_anywhere_run. cbv zeta. rewrite Hd. reflexivity.
  - rewrite launcher_runpy_run. cbv zeta. rewrite Hd.
    unfold can_run_path. rewrite Hf. reflexivity.
  - rewrite start_nibor_run. cbv zeta. rewrite Hd, Hp. reflexivity.
Qed.

(** C1: every launcher, when executed, issues exactly one request to start
    a program; that request runs main.py through a Python interpreter, with
    the directory of the launcher (for the launcher that works from
    anywhere: the project directory under the home directory) as working
    directory, and the script it runs is main.py of that directory. Where
    that directory and its main.py exist and pythonw is found, the request
    is carried out: the program is started and finds main.py. *)
Theorem launchers_invoke_main_py (l : launcher) (h : host) :
  launcher_present h ->
  exists ev,
    launch_calls (run (code l) h) = [ev]
    /\ runs_main_py_in h (app_dir l h) ev = true
    /\ workdir_of ev = Some (app_dir l h)
    /\ script_of ev = Some (app_dir l h // "main.py")
    /\ (h_is_dir h (app_dir l h) = true ->
        h_is_file h (app_dir l h // "main.py") = true ->
        h_on_path h "pythonw" = true ->
        started (run (code l) h) = [ev] /\ finds_script h ev = true).
Proof.
  intros Hp. exists (launch_event l h).
  destruct (launch_event_runs_main l h) as (R & W & S).
  split; [apply launch_calls_present, Hp|].
  repeat split; try assumption.
  - apply started_healthy; assumption.
  - unfold finds_script. rewrite S. assumption.
Qed.

(** NIBOR_Recon.pyw on [host_win], where C:\proj holds main.py. *)
Lemma launchers_invoke_main_py_witness :
  exists ev,
    launch_calls (run (code NIBOR_Recon_pyw) host_win) = [ev]
    /\ runs_main_py_in host_win (app_dir NIBOR_Recon_pyw host_win) ev = true
    /\ workdir_of ev = Some ["C:"; "proj"]
    /\ script_of ev = Some ["C:"; "proj"; "main.py"]
    /\ started (run (code NIBOR_Recon_pyw) host_win) = [ev]
    /\ finds_script host_win ev = true.
Proof.
  destruct (launchers_invoke_main_py NIBOR_Recon_pyw host_win) as (ev & A & B & C & D & E).
  - reflexivity.
  - exists ev. repeat split; try assumption; apply E; reflexivity.
Defined.

(** The launch of a script-relative launcher, whatever the system answers. *)
Lemma script_relative_launch (l : launcher) (h : host) :
  script_relative l = true ->
  launcher_present h ->
  let d := dirname (launcher_location h) in
  omap workdir_of (launch_calls (run (code l) h)) = [d]
  /\ omap script_of (launch_calls (run (code l) h)) = [d // "main.py"].
Proof.
  unfold launcher_present. intros Hl Hp. cbv zeta.
  destruct l; try discriminate Hl; cbn [code].
  - rewrite NIBOR_Recon_run. cbv zeta. rewrite Hp. split; reflexivity.
  - rewrite launcher_runpy_run. cbv zeta. rewrite Hp.
    destruct (can_run_path h _); split; reflexivity.
  - rewrite start_nibor_run. cbv zeta. rewrite Hp.
    destruct (h_on_path h "pythonw"); split; reflexivity.
Qed.

(** C6: for NIBOR_Recon.pyw, the runpy launcher and start_nibor.vbs, two
    invocations of the launcher file at one location, from whatever current
    directories and under whatever names, give main.py the same working
    directory, the directory of the launcher, and run the same main.py. *)
Theorem script_relative_dir_ignores_cwd (l : launcher) (h1 h2 : host) :
  script_relative l = true ->
  launcher_location h1 = launcher_location h2 ->
  launcher_present h1 ->
  launcher_present h2 ->
  omap workdir_of (launch_calls (run (code l) h1))
    = omap workdir_of (launch_calls (run (code l) h2))
  /\ omap workdir_of (launch_calls (run (code l) h1)) = [dirname (launcher_location h1)]
  /\ omap script_of (launch_calls (run (code l) h1))
    = omap script_of (launch_calls (run (code l) h2))
  /\ omap script_of (launch_calls (run (code l) h1))
    = [dirname (launcher_location h1) // "main.py"].
Proof.
  intros Hl Hloc Hp1 Hp2.
  destruct (script_relative_launch l h1 Hl Hp1) as [W1 S1].
  destruct (script_relative_launch l h2 Hl Hp2) as [W2 S2].
  rewrite W1, W2, S1, S2, Hloc. repeat split.
Qed.

(** NIBOR_Recon.pyw started from the home directory under a relative name
    and from /tmp under its full name. *)
Lemma script_relative_dir_ignores_cwd_witness :
  h_cwd host_home <> h_cwd host_tmp
  /\ omap workdir_of (launch_calls (run (code NIBOR_Recon_pyw) host_home))
     = omap workdir_of (launch_calls (run (code NIBOR_Recon_pyw) host_tmp))
  /\ omap workdir_of (launch_calls (run (code NIBOR_Recon_pyw) host_home))
     = [dirname (launcher_location host_home)]
  /\ omap script_of (launch_calls (run (code NIBOR_Recon_pyw) host_home))
     = omap script_of (launch_calls (run (code NIBOR_Recon_pyw) host_tmp))
  /\ omap script_of (launch_calls (run (code NIBOR_Recon_pyw) host_home))
     = [dirname (launcher_location host_home) // "main.py"].
Proof.
  split; [discriminate|].
  apply (script_relative_dir_ignores_cwd NIBOR_Recon_pyw host_home host_tmp);
    reflexivity.
Defined.

(** C7: the launcher that works from anywhere issues one call, the
    creation of a child running main.py, whose working directory is the
    home directory followed by OneDrive - Swedbank,
    GroupTreasury-ShortTermFunding - Documents, Samba, Samba, Gitnewnew;
    that directory is the same for every launcher location, invocation
    directory and file system; and the child is created as soon as the
    directory exists, whether or not main.py does (nothing is checked
    before the call). *)
Theorem launcher_anywhere_home_fixed (h : host) :
  calls (run launcher_anywhere h)
    = [Spawn [h_executable h; "main.py"]
         (h_home h ++ ["OneDrive - Swedbank";
                       "GroupTreasury-ShortTermFunding - Documents";
                       "Samba"; "Samba"; "Gitnewnew"])
         (on_windows h) false]
  /\ (forall (d : apath) (p : path) (is_dir is_file : apath -> bool),
        calls (run launcher_anywhere (invoked_from (with_fs h is_dir is_file) d p))
        = calls (run launcher_anywhere h))
  /\ started (run launcher_anywhere h)
     = if h_is_dir h (project_dir h)
       then [Spawn [h_executable h; "main.py"] (project_dir h) (on_windows h) false]
       else [].
Proof.
  assert (Hc : forall h', calls (run launcher_anywhere h')
                 = [Spawn [h_executable h'; "main.py"] (project_dir h') (on_windows h') false]).
  { intros h'. rewrite launcher_anywhere_run. cbv zeta.
    destruct (h_is_dir h' (project_dir h')); reflexivity. }
  split; [|split].
  - rewrite Hc. unfold project_dir, join. rewrite <- !app_assoc. reflexivity.
  - intros d p is_dir is_file. rewrite !Hc. reflexivity.
  - rewrite launcher_anywhere_run. cbv zeta.
    destruct (h_is_dir h (project_dir h)); reflexivity.
Qed.

(** The calls of every launcher: at most a change of directory, then at
    most one launch. *)
Lemma launcher_calls_shape (l : launcher) (h : host) :
  let d := app_dir l h in
  exists ev,
    runs_main_py_in h d ev = true
    /\ (calls (run (code l) h) = [ev]
        \/ calls (run (code l) h) = [Chdir d; ev]
        \/ calls (run (code l) h) = [Chdir d])
    /\ (match ev with Spawn _ _ _ waited => waited = false | _ => True end).
Proof.
  cbv zeta. destruct l; cbn [code app_dir].
  - exists (Spawn [h_executable h; "main.py"] (dirname (launcher_location h)) (on_windows h) false).
    split; [apply runs_main_py_in_spawn, is_python_executable|].
    split; [|reflexivity]. left.
    rewrite NIBOR_Recon_run. cbv zeta. destruct (h_is_dir h _); reflexivity.
  - exists (Spawn [h_executable h; "main.py"] (project_dir h) (on_windows h) false).
    split; [apply runs_main_py_in_spawn, is_python_executable|].
    split; [|reflexivity]. left.
    rewrite launcher_anywhere_run. cbv zeta. destruct (h_is_dir h _); reflexivity.
  - exists (RunInProcess (dirname (launcher_location h) // "main.py") "__main__"
              (dirname (launcher_location h))).
    split; [apply runs_main_py_in_process|].
    split; [|exact I].
    rewrite launcher_runpy_run. cbv zeta.
    destruct (h_is_dir h _); [|right; right; reflexivity].
    right; left. destruct (can_run_path h _); reflexivity.
  - exists (Spawn ["pythonw"; "main.py"] (dirname (launcher_location h)) true false).
    split; [apply runs_main_py_in_spawn, is_python_pythonw|].
    split; [|reflexivity].
    rewrite start_nibor_run. cbv zeta.
    destruct (h_is_dir h _); [|right; right; reflexivity].
    right; left. destruct (h_on_path h "pythonw"); reflexivity.
Qed.

(** C5: a launcher issues at most one request to start a program, and that
    request runs main.py either in a child the launcher does not wait for
    or inside the launcher's own interpreter; the only other call is the
    change of directory. *)
Theorem launchers_do_not_coordinate (l : launcher) (h : host) :
  (length (launch_calls (run (code l) h)) <= 1)%nat
  /\ forallb (detached_main_py h (app_dir l h)) (launch_calls (run (code l) h)) = true
  /\ (length (List.filter is_spawn (calls (run (code l) h))) = 0%nat
      \/ List.filter is_spawn (calls (run (code l) h)) = launch_calls (run (code l) h)).
Proof.
  destruct (launcher_calls_shape l h) as (ev & Hev & Hc & Hw). cbv zeta in *.
  assert (Hl : is_launch ev = true).
  { destruct ev; [discriminate Hev | reflexivity | reflexivity]. }
  assert (Hd : detached_main_py h (app_dir l h) ev = true).
  { unfold detached_main_py. rewrite Hev. destruct ev; try reflexivity.
    rewrite Hw. reflexivity. }
  unfold launch_calls.
  destruct Hc as [Hc | [Hc | Hc]]; rewrite Hc; cbn [List.filter is_launch];
    rewrite ?Hl; cbn [length forallb]; rewrite ?Hd;
    (split; [lia | split; [reflexivity|]]);
    destruct ev; cbn; auto.
Qed.

(** C4: every launcher whose own directory exists issues the one request
    that starts main.py in the application directory, and that request is
    carried out where the directory, main.py and pythonw exist; every call
    of a launcher is launcher glue (entering the application directory,
    starting main.py there), and a launcher changes nothing of its process
    but the current directory and the head of sys.path; the batch file ends
    with the shortcut on the Desktop, its temporary script gone and its
    banner printed, and nothing else. *)
Theorem sources_are_glue_or_shortcut (l : launcher) (h : host)
    (e : bat_env) (f : gmap string file) :
  (forallb (is_glue h (app_dir l h)) (calls (run (code l) h)) = true
   /\ (cwd (snd (run (code l) h)) = h_cwd h
       \/ cwd (snd (run (code l) h)) = app_dir l h)
   /\ (sys_path (snd (run (code l) h)) = h_sys_path h
       \/ sys_path (snd (run (code l) h)) = app_dir l h :: h_sys_path h)
   /\ (launcher_present h ->
       exists ev,
         runs_main_py_in h (app_dir l h) ev = true
         /\ launch_calls (run (code l) h) = [ev]
         /\ (h_is_dir h (app_dir l h) = true ->
             h_is_file h (app_dir l h // "main.py") = true ->
             h_on_path h "pythonw" = true ->
             started (run (code l) h) = [ev])))
  /\ run_bat e f
     = (Ok tt,
        {| files := <[lnk_name e := LnkFile (made_shortcut e f)]> (delete (vbs_name e) f);
           shown := banner |}).
Proof.
  split; [|apply run_bat_closed].
  split.
  { destruct (launcher_calls_shape l h) as (ev & Hev & Hc & _). cbv zeta in *.
    assert (Hg : is_glue h (app_dir l h) ev = true).
    { destruct ev; [discriminate Hev | exact Hev | exact Hev]. }
    destruct Hc as [Hc | [Hc | Hc]]; rewrite Hc; cbn [forallb is_glue];
      rewrite ?Hg, ?bool_decide_eq_true_2 by reflexivity; reflexivity. }
  split; [|split].
  - destruct l; cbn [code app_dir].
    + rewrite NIBOR_Recon_run. cbv zeta. destruct (h_is_dir h _); cbn; auto.
    + rewrite launcher_anywhere_run. cbv zeta. destruct (h_is_dir h _); cbn; auto.
    + rewrite launcher_runpy_run. cbv zeta.
      destruct (h_is_dir h _); [|cbn; auto].
      destruct (can_run_path h _); cbn; auto.
    + rewrite start_nibor_run. cbv zeta.
      destruct (h_is_dir h _); [|cbn; auto].
      destruct (h_on_path h "pythonw"); cbn; auto.
  - destruct l; cbn [code app_dir].
    + rewrite NIBOR_Recon_run. cbv zeta. destruct (h_is_dir h _); cbn; auto.
    + rewrite launcher_anywhere_run. cbv zeta. destruct (h_is_dir h _); cbn; auto.
    + rewrite launcher_runpy_run. cbv zeta.
      destruct (h_is_dir h _); [|cbn; auto].
      destruct (can_run_path h _); cbn [snd sys_path];
        destruct (bool_decide _); auto.
    + rewrite start_nibor_run. cbv zeta.
      destruct (h_is_dir h _); [|cbn; auto].
      destruct (h_on_path h "pythonw"); cbn; auto.
  - intros Hp. exists (launch_event l h).
    split; [apply launch_event_runs_main|].
    split; [apply launch_calls_present, Hp|].
    apply started_healthy.
Qed.

(** The runpy launcher on [host_win]: main.py of C:\proj is run inside the
    launcher. *)
Lemma sources_are_glue_or_shortcut_witness :
  exists ev,
    runs_main_py_in host_win (app_dir part_001 host_win) ev = true
    /\ launch_calls (run (code part_001) host_win) = [ev]
    /\ started (run (code part_001) host_win) = [ev].
Proof.
  destruct (proj1 (sources_are_glue_or_shortcut part_001 host_win sample_env ∅))
    as (_ & _ & _ & H).
  destruct H as (ev & A & B & C); [reflexivity|].
  exists ev. split; [assumption|]. split; [assumption|]. apply C; reflexivity.
Defined.

(** ** Properties of the batch file *)

Lemma files_after_run_bat (e : bat_env) (f : gmap string file) :
  files (snd (run_bat e f))
  = <[lnk_name e := LnkFile (made_shortcut e f)]> (delete (vbs_name e) f).
Proof. rewrite run_bat_closed. reflexivity. Qed.

(** C3: after a run of the batch file the Desktop of the user holds the
    shortcut NIBOR Terminal.lnk, whose target is start_nibor.vbs in the
    directory of the batch file, whose working directory is that directory,
    and whose icon is assets\icon.ico of that directory when that file
    exists and what the search of PATH for pythonw.exe gives otherwise;
    every other shortcut in the file store was there before, unchanged. *)
Theorem create_shortcut_makes_desktop_link (e : bat_env) (f : gmap string file) :
  let after := files (snd (run_bat e f)) in
  let lnk := USERPROFILE e +:+ "\Desktop\NIBOR Terminal.lnk" in
  (exists sc,
      after !! lnk = Some (LnkFile sc)
      /\ TargetPath sc = dp0 e +:+ "start_nibor.vbs"
      /\ WorkingDirectory sc = dp0 e
      /\ IconLocation sc
         = if bool_decide (is_Some (f !! (dp0 e +:+ "assets\icon.ico")))
           then dp0 e +:+ "assets\icon.ico"
           else PATH_search e "pythonw.exe")
  /\ (forall (p : string) (sc : shortcut),
        p <> lnk -> after !! p = Some (LnkFile sc) -> f !! p = Some (LnkFile sc)).
Proof.
  cbv zeta. rewrite <- lnk_name_on_desktop, files_after_run_bat. split.
  - exists (made_shortcut e f). rewrite lookup_insert_eq. repeat split.
  - intros p sc Hp Hs. rewrite lookup_insert_ne in Hs by (apply not_eq_sym, Hp).
    apply lookup_delete_Some in Hs. apply Hs.
Qed.

(** The batch file on an empty store. *)
Lemma create_shortcut_makes_desktop_link_witness :
  exists sc,
    files (snd (run_bat sample_env ∅)) !! (USERPROFILE sample_env +:+ "\Desktop\NIBOR Terminal.lnk")
      = Some (LnkFile sc)
    /\ TargetPath sc = dp0 sample_env +:+ "start_nibor.vbs"
    /\ WorkingDirectory sc = dp0 sample_env
    /\ IconLocation sc
       = if bool_decide (is_Some ((∅ : gmap string file) !! (dp0 sample_env +:+ "assets\icon.ico")))
         then dp0 sample_env +:+ "assets\icon.ico"
         else PATH_search sample_env "pythonw.exe".
Proof. exact (proj1 (create_shortcut_makes_desktop_link sample_env ∅)). Defined.

(** C8, as stated, fails: a file that is at %TEMP%\CreateShortcut.vbs
    before the run (here in C:\Temp, with sample_env) is not the Desktop
    shortcut, and it is gone after the run. *)
Lemma create_shortcut_clobbers_temp_name :
  ~ (forall (e : bat_env) (f : gmap string file) (p : string),
        p <> lnk_name e -> files (snd (run_bat e f)) !! p = f !! p).
Proof.
  intros H.
  specialize (H sample_env {[ vbs_name sample_env := OtherFile "notes" ]}
                (vbs_name sample_env) (vbs_name_not_lnk sample_env)).
  rewrite files_after_run_bat in H.
  rewrite lookup_insert_ne in H by (apply not_eq_sym, vbs_name_not_lnk).
  rewrite lookup_delete_eq, lookup_singleton_eq in H. discriminate H.
Qed.

(** C8, amended: a run of the batch file changes the file store at two
    names only, the Desktop shortcut, which it writes, and
    %TEMP%\CreateShortcut.vbs, where no file is left; the only name that
    holds a file after the run and held none before is the shortcut. *)
Theorem create_shortcut_frame (e : bat_env) (f : gmap string file) :
  let after := files (snd (run_bat e f)) in
  (forall p : string, p <> lnk_name e -> p <> vbs_name e -> after !! p = f !! p)
  /\ after !! vbs_name e = None
  /\ is_Some (after !! lnk_name e)
  /\ (forall p : string, f !! p = None -> is_Some (after !! p) -> p = lnk_name e).
Proof.
  cbv zeta. rewrite files_after_run_bat. repeat split.
  - intros p Hl Hv. rewrite lookup_insert_ne by (apply not_eq_sym, Hl).
    apply lookup_delete_ne, not_eq_sym, Hv.
  - rewrite lookup_insert_ne by (apply not_eq_sym, vbs_name_not_lnk).
    apply lookup_delete_eq.
  - rewrite lookup_insert_eq. eexists. reflexivity.
  - intros p Hn [x Hx]. destruct (decide (p = lnk_name e)) as [->|Hl]; [reflexivity|].
    rewrite lookup_insert_ne in Hx by (apply not_eq_sym, Hl).
    apply lookup_delete_Some in Hx. destruct Hx as [_ Hx]. congruence.
Qed.

(** A name the batch file has nothing to do with stays free. *)
Lemma create_shortcut_frame_witness :
  files (snd (run_bat sample_env ∅)) !! "C:\proj\main.py" = None.
Proof.
  rewrite (proj1 (create_shortcut_frame sample_env ∅) "C:\proj\main.py").
  - apply lookup_empty.
  - vm_compute. discriminate.
  - vm_compute. discriminate.
Defined.

(** ** Failure handling *)

(** C2, as stated, fails for the missing icon: the batch file tests
    whether assets\icon.ico exists, so the shortcut it makes is not the same
    in two file stores that differ in that file only (here the empty store
    and the store holding C:\proj\assets\icon.ico, with sample_env). *)
Lemma create_shortcut_tests_icon :
  ~ (forall (e : bat_env) (f f' : gmap string file),
        (forall p : string, p <> icon_name e -> f !! p = f' !! p) ->
        files (snd (run_bat e f)) !! lnk_name e
        = files (snd (run_bat e f')) !! lnk_name e).
Proof.
  intros H.
  specialize (H sample_env ∅ {[ icon_name sample_env := OtherFile "icon" ]}).
  rewrite !files_after_run_bat, !lookup_insert_eq in H.
  assert (Hagree : forall p : string, p <> icon_name sample_env ->
            (∅ : gmap string file) !! p
            = ({[ icon_name sample_env := OtherFile "icon" ]} : gmap string file) !! p).
  { intros p Hp. rewrite lookup_empty, lookup_singleton_ne by (apply not_eq_sym, Hp).
    reflexivity. }
  specialize (H Hagree).
  apply (f_equal (fun o => match o with
                           | Some (LnkFile sc) => IconLocation sc
                           | _ => EmptyString
                           end)) in H.
  unfold made_shortcut, chosen_icon in H. cbn [IconLocation] in H.
  rewrite lookup_empty, lookup_singleton_eq in H.
  rewrite bool_decide_eq_false_2 in H by (apply is_Some_None).
  rewrite bool_decide_eq_true_2 in H by (eexists; reflexivity).
  discriminate H.
Qed.

Lemma exit_report_at_most_one (h : host) (r : result unit) :
  (length (exit_report h r) <= 1)%nat.
Proof. destruct r as [|x]; cbn; [lia|]. destruct (h_console h); cbn; lia. Qed.

Lemma child_report_at_most_one (h : host) (ev : event) :
  (length (child_report h ev) <= 1)%nat.
Proof.
  destruct ev as [d|argv wd hidden waited|file name wd]; cbn [child_report length]; try lia.
  destruct (script_of _); cbn; [|lia].
  destruct (_ || _ || _); cbn; lia.
Qed.

(** Whatever happens, a run of a launcher causes at most one message. *)
Lemma messages_at_most_one (l : launcher) (h : host) :
  (length (messages h (run (code l) h)) <= 1)%nat.
Proof.
  unfold messages. rewrite length_app.
  assert (Hc : forall ev, (length (flat_map (child_report h) [ev]) <= 1)%nat).
  { intros ev. cbn [flat_map]. rewrite app_nil_r. apply child_report_at_most_one. }
  destruct l; cbn [code].
  - rewrite NIBOR_Recon_run. cbv zeta. destruct (h_is_dir h _).
    + cbn [fst exit_report length]. apply (Hc _).
    + change (started _) with (@nil event). cbn [flat_map length].
      pose proof (exit_report_at_most_one h
        (Raised (OSError (if on_windows h then "NotADirectoryError" else "FileNotFoundError")
                   (dirname (launcher_location h))))). cbn [fst]. lia.
  - rewrite launcher_anywhere_run. cbv zeta. destruct (h_is_dir h _).
    + cbn [fst exit_report length]. apply (Hc _).
    + change (started _) with (@nil event). cbn [flat_map length].
      pose proof (exit_report_at_most_one h
        (Raised (OSError (if on_windows h then "NotADirectoryError" else "FileNotFoundError")
                   (project_dir h)))). cbn [fst]. lia.
  - rewrite launcher_runpy_run. cbv zeta.
    destruct (h_is_dir h _); [destruct (can_run_path h _)|];
      cbn [fst]; match goal with
                 | |- (length (exit_report h ?r) + _ <= 1)%nat =>
                     pose proof (exit_report_at_most_one h r)
                 end; cbn; cbn in *; lia.
  - rewrite start_nibor_run. cbv zeta.
    destruct (h_is_dir h _); [destruct (h_on_path h _)|];
      cbn [fst]; match goal with
                 | |- (length (exit_report h ?r) + _ <= 1)%nat =>
                     pose proof (exit_report_at_most_one h r)
                 end; cbn; rewrite ?orb_true_r; cbn; cbn in *; lia.
Qed.

(** C2, amended: when the application directory is missing a launcher
    issues its one call and ends in an error nobody handles, having started
    nothing, and nothing is printed but the report of that error; when
    there is nothing at the name main.py the launchers that spawn a child
    spawn it all the same, and it does not find its script, while the runpy
    launcher ends in the error of run_path; in both cases no launcher tries
    again and at most one message is printed. When the icon file is missing
    the batch file goes on and gives the shortcut what the search of PATH
    for pythonw.exe gives. *)
Theorem failures_unhandled_except_icon (l : launcher) (h : host)
    (e : bat_env) (f : gmap string file) :
  (h_is_dir h (app_dir l h) = false ->
     exists x,
       fst (run (code l) h) = Raised x
       /\ (length (calls (run (code l) h)) = 1)%nat
       /\ started (run (code l) h) = []
       /\ messages h (run (code l) h) = exit_report h (Raised x)
       /\ (length (messages h (run (code l) h)) <= 1)%nat)
  /\ (h_is_dir h (app_dir l h) = true ->
      h_is_file h (app_dir l h // "main.py") = false ->
      h_is_dir h (app_dir l h // "main.py") = false ->
      h_on_path h "pythonw" = true ->
      (length (launch_calls (run (code l) h)) = 1)%nat
      /\ (length (messages h (run (code l) h)) <= 1)%nat
      /\ match l with
         | part_001 =>
             fst (run (code l) h)
               = Raised (OSError "FileNotFoundError" (app_dir l h // "main.py"))
             /\ started (run (code l) h) = []
         | _ =>
             fst (run (code l) h) = Ok tt
             /\ exists ev, started (run (code l) h) = [ev] /\ finds_script h ev = false
         end)
  /\ (f !! icon_name e = None ->
      fst (run_bat e f) = Ok tt
      /\ exists sc,
           files (snd (run_bat e f)) !! lnk_name e = Some (LnkFile sc)
           /\ IconLocation sc = PATH_search e "pythonw.exe").
Proof.
  split; [|split].
  - intros Hd.
    assert (Hs : forall x, started (run (code l) h) = [] ->
              fst (run (code l) h) = Raised x ->
              messages h (run (code l) h) = exit_report h (Raised x)).
    { intros x Hs Hx. unfold messages. rewrite Hs, Hx. apply app_nil_r. }
    destruct l; cbn [code app_dir] in *.
    + revert Hs. rewrite NIBOR_Recon_run. cbv zeta. rewrite Hd. intros Hs.
      eexists. split; [reflexivity|]. split; [reflexivity|]. split; [reflexivity|].
      rewrite (Hs _ eq_refl eq_refl). split; [reflexivity|]. apply exit_report_at_most_one.
    + revert Hs. rewrite launcher_anywhere_run. cbv zeta. rewrite Hd. intros Hs.
      eexists. split; [reflexivity|]. split; [reflexivity|]. split; [reflexivity|].
      rewrite (Hs _ eq_refl eq_refl). split; [reflexivity|]. apply exit_report_at_most_one.
    + revert Hs. rewrite launcher_runpy_run. cbv zeta. rewrite Hd. intros Hs.
      eexists. split; [reflexivity|]. split; [reflexivity|]. split; [reflexivity|].
      rewrite (Hs _ eq_refl eq_refl). split; [reflexivity|]. apply exit_report_at_most_one.
    + revert Hs. rewrite start_nibor_run. cbv zeta. rewrite Hd. intros Hs.
      eexists. split; [reflexivity|]. split; [reflexivity|]. split; [reflexivity|].
      rewrite (Hs _ eq_refl eq_refl). split; [reflexivity|]. apply exit_report_at_most_one.
  - intros Hd Hf Hm Hp.
    split; [|split; [apply messages_at_most_one|]];
      destruct l; cbn [code app_dir] in *.
    + rewrite NIBOR_Recon_run. cbv zeta. rewrite Hd. reflexivity.
    + rewrite launcher_anywhere_run. cbv zeta. rewrite Hd. reflexivity.
    + rewrite launcher_runpy_run. cbv zeta. rewrite Hd.
      destruct (can_run_path h _); reflexivity.
    + rewrite start_nibor_run. cbv zeta. rewrite Hd, Hp. reflexivity.
    + rewrite NIBOR_Recon_run. cbv zeta. rewrite Hd.
      split; [reflexivity|]. eexists. split; [reflexivity|].
      unfold finds_script. cbn [script_of]. exact Hf.
    + rewrite launcher_anywhere_run. cbv zeta. rewrite Hd.
      split; [reflexivity|]. eexists. split; [reflexivity|].
      unfold finds_script. cbn [script_of]. exact Hf.
    + rewrite launcher_runpy_run. cbv zeta. rewrite Hd.
      unfold can_run_path, run_path_error. rewrite Hf, Hm.
      split; reflexivity.
    + rewrite start_nibor_run. cbv zeta. rewrite Hd, Hp.
      split; [reflexivity|]. eexists. split; [reflexivity|].
      unfold finds_script. cbn [script_of]. exact Hf.
  - intros Hi. rewrite run_bat_closed. split; [reflexivity|].
    exists (made_shortcut e f). cbn [snd files]. rewrite lookup_insert_eq.
    split; [reflexivity|].
    unfold made_shortcut, chosen_icon. cbn [IconLocation]. rewrite Hi.
    rewrite bool_decide_eq_false_2 by (apply is_Some_None). reflexivity.
Qed.

(** On [host_home] the project directory under the home directory is
    missing, the directory of the launcher exists without main.py, and the
    empty store has no icon. *)
Lemma failures_unhandled_except_icon_witness :
  (exists x,
     fst (run (code part_000) host_home) = Raised x
     /\ (length (calls (run (code part_000) host_home)) = 1)%nat
     /\ started (run (code part_000) host_home) = []
     /\ messages host_home (run (code part_000) host_home)
        = exit_report host_home (Raised x)
     /\ (length (messages host_home (run (code part_000) host_home)) <= 1)%nat)
  /\ ((length (launch_calls (run (code NIBOR_Recon_pyw) host_home)) = 1)%nat
      /\ (length (messages host_home (run (code NIBOR_Recon_pyw) host_home)) <= 1)%nat
      /\ fst (run (code NIBOR_Recon_pyw) host_home) = Ok tt
      /\ exists ev, started (run (code NIBOR_Recon_pyw) host_home) = [ev]
                    /\ finds_script host_home ev = false)
  /\ (fst (run_bat sample_env ∅) = Ok tt
      /\ exists sc,
           files (snd (run_bat sample_env ∅)) !! lnk_name sample_env = Some (LnkFile sc)
           /\ IconLocation sc = PATH_search sample_env "pythonw.exe").
Proof.
  split; [|split].
  - apply (proj1 (failures_unhandled_except_icon part_000 host_home sample_env ∅)).
    reflexivity.
  - apply (proj1 (proj2 (failures_unhandled_except_icon NIBOR_Recon_pyw host_home sample_env ∅)));
      reflexivity.
  - apply (proj2 (proj2 (failures_unhandled_except_icon part_000 host_home sample_env ∅))).
    apply lookup_empty.
Defined.

(** ** Further properties of the launchers *)

(** A launcher ends without an error exactly when the application
    directory exists and, for start_nibor.vbs, pythonw is found through
    PATH, and, for the runpy launcher, run_path finds code at main.py and
    the application ends without letting an exception through. The
    launchers that create a child through Popen never look at main.py. *)
Theorem launcher_ok_conditions (l : launcher) (h : host) :
  is_ok (fst (run (code l) h))
  = h_is_dir h (app_dir l h)
    && match l with
       | part_001 =>
           can_run_path h (app_dir l h // "main.py") && is_ok (h_main_ends h)
       | start_nibor_vbs => h_on_path h "pythonw"
       | _ => true
       end.
Proof.
  destruct l; cbn [code app_dir].
  - rewrite NIBOR_Recon_run. cbv zeta. destruct (h_is_dir h _); reflexivity.
  - rewrite launcher_anywhere_run. cbv zeta. destruct (h_is_dir h _); reflexivity.
  - rewrite launcher_runpy_run. cbv zeta.
    destruct (h_is_dir h _); [|reflexivity]. destruct (can_run_path h _); reflexivity.
  - rewrite start_nibor_run. cbv zeta.
    destruct (h_is_dir h _); [|reflexivity]. destruct (h_on_path h _); reflexivity.
Qed.

(** main.py really runs exactly when the application directory and its
    main.py exist and, for start_nibor.vbs, pythonw is found through PATH:
    one condition for the four launchers. *)
Theorem app_runs_conditions (l : launcher) (h : host) :
  app_runs h (run (code l) h)
  = h_is_dir h (app_dir l h)
    && h_is_file h (app_dir l h // "main.py")
    && match l with
       | start_nibor_vbs => h_on_path h "pythonw"
       | _ => true
       end.
Proof.
  unfold app_runs, started, carried_out, finds_script.
  destruct l; cbn [code app_dir].
  - rewrite NIBOR_Recon_run. cbv zeta. destruct (h_is_dir h _); cbn; [|reflexivity].
    rewrite andb_true_r. reflexivity.
  - rewrite launcher_anywhere_run. cbv zeta. destruct (h_is_dir h _); cbn; [|reflexivity].
    rewrite andb_true_r. reflexivity.
  - rewrite launcher_runpy_run. cbv zeta. destruct (h_is_dir h _); [|reflexivity].
    unfold can_run_path.
    destruct (h_is_file h (dirname (launcher_location h) // "main.py")) eqn:E1.
    + cbn. exact E1.
    + destruct (h_is_dir h (dirname (launcher_location h) // "main.py")) eqn:E2;
        [|reflexivity].
      destruct (h_is_file h (dirname (launcher_location h) // "main.py" // "__main__.py"));
        cbn; [exact E1 | reflexivity].
  - rewrite start_nibor_run. cbv zeta. destruct (h_is_dir h _); [|reflexivity].
    destruct (h_on_path h _); cbn; [|rewrite andb_false_r; reflexivity].
    rewrite andb_true_r. reflexivity.
Qed.

(** The children a launcher asks for, when its own directory exists:
    NIBOR_Recon.pyw and the launcher that works from anywhere ask for one,
    with its console window suppressed exactly on win32; start_nibor.vbs
    asks for one, always hidden; the runpy launcher asks for none. *)
Theorem child_window_hidden (l : launcher) (h : host) :
  launcher_present h ->
  List.filter is_spawn (calls (run (code l) h))
  = match l with
    | part_001 => []
    | start_nibor_vbs =>
        [Spawn ["pythonw"; "main.py"] (app_dir l h) true false]
    | _ =>
        [Spawn [h_executable h; "main.py"] (app_dir l h) (on_windows h) false]
    end.
Proof.
  unfold launcher_present. intros Hp. destruct l; cbn [code app_dir].
  - rewrite NIBOR_Recon_run. cbv zeta. rewrite Hp. reflexivity.
  - rewrite launcher_anywhere_run. cbv zeta.
    destruct (h_is_dir h (project_dir h)); reflexivity.
  - rewrite launcher_runpy_run. cbv zeta. rewrite Hp.
    destruct (can_run_path h _); reflexivity.
  - rewrite start_nibor_run. cbv zeta. rewrite Hp.
    destruct (h_on_path h "pythonw"); reflexivity.
Qed.

(** NIBOR_Recon.pyw on Windows, [host_win_pyw]. *)
Lemma child_window_hidden_witness :
  List.filter is_spawn (calls (run (code NIBOR_Recon_pyw) host_win_pyw))
  = [Spawn ["C:\Py\pythonw.exe"; "main.py"] ["C:"; "proj"] true false].
Proof. apply (child_window_hidden NIBOR_Recon_pyw host_win_pyw). reflexivity. Defined.

(** The sys.path the runpy launcher leaves for main.py: once it has
    entered its directory, that directory is put at the head unless it is
    on sys.path already, and nothing else changes; so the directory is on
    sys.path, and no duplicate comes in. When the directory cannot be
    entered, sys.path stays as it was. *)
Theorem launcher_runpy_sys_path (h : host) :
  let d := dirname (launcher_location h) in
  let after := sys_path (snd (run launcher_runpy h)) in
  after = (if h_is_dir h d
           then if bool_decide (d ∈ h_sys_path h)
                then h_sys_path h
                else d :: h_sys_path h
           else h_sys_path h)
  /\ (h_is_dir h d = true -> d ∈ after)
  /\ (NoDup (h_sys_path h) -> NoDup after).
Proof.
  cbv zeta.
  assert (E : sys_path (snd (run launcher_runpy h))
              = if h_is_dir h (dirname (launcher_location h))
                then if bool_decide (dirname (launcher_location h) ∈ h_sys_path h)
                     then h_sys_path h
                     else dirname (launcher_location h) :: h_sys_path h
                else h_sys_path h).
  { rewrite launcher_runpy_run. cbv zeta.
    destruct (h_is_dir h _); [destruct (can_run_path h _)|]; reflexivity. }
  rewrite E. split; [reflexivity|].
  destruct (h_is_dir h _); [|split; [discriminate | auto]].
  destruct (bool_decide (dirname (launcher_location h) ∈ h_sys_path h)) eqn:B.
  - apply bool_decide_eq_true_1 in B. split; [intros _; exact B | auto].
  - apply bool_decide_eq_false_1 in B. split.
    + intros _. apply list_elem_of_here.
    + intros N. apply NoDup_cons. split; assumption.
Qed.

(** The runpy launcher on [host_win], whose sys.path lacks the directory. *)
Lemma launcher_runpy_sys_path_witness :
  dirname (launcher_location host_win) ∈ sys_path (snd (run launcher_runpy host_win)).
Proof.
  apply (proj1 (proj2 (launcher_runpy_sys_path host_win))). reflexivity.
Defined.

(** What every launcher asks for, when its own directory exists. *)
Lemma launch_of_every_launcher (l : launcher) (h : host) :
  launcher_present h ->
  omap workdir_of (launch_calls (run (code l) h)) = [app_dir l h]
  /\ omap script_of (launch_calls (run (code l) h)) = [app_dir l h // "main.py"].
Proof.
  intros Hp. rewrite (launch_calls_present l h Hp).
  destruct (launch_event_runs_main l h) as (_ & W & S).
  cbn [omap list_omap]. rewrite W, S. split; reflexivity.
Qed.

(** Two launchers, each started under its own file name, ask for the same
    main.py in the same working directory whenever the directories they run
    the application in are the same: for two script-relative launchers, when
    they are kept in one directory; for a script-relative launcher and the
    launcher that works from anywhere, when the first is kept in the project
    directory under the home directory of the second. *)
Theorem launchers_agree (l1 l2 : launcher) (h1 h2 : host) :
  launcher_present h1 ->
  launcher_present h2 ->
  (if script_relative l1 then dirname (launcher_location h1) else project_dir h1)
  = (if script_relative l2 then dirname (launcher_location h2) else project_dir h2) ->
  omap workdir_of (launch_calls (run (code l1) h1))
    = omap workdir_of (launch_calls (run (code l2) h2))
  /\ omap script_of (launch_calls (run (code l1) h1))
    = omap script_of (launch_calls (run (code l2) h2)).
Proof.
  intros Hp1 Hp2 Hd.
  destruct (launch_of_every_launcher l1 h1 Hp1) as [W1 S1].
  destruct (launch_of_every_launcher l2 h2 Hp2) as [W2 S2].
  rewrite W1, W2, S1, S2.
  assert (E : app_dir l1 h1 = app_dir l2 h2).
  { destruct l1, l2; exact Hd. }
  rewrite E. split; reflexivity.
Qed.

(** start_nibor.vbs and NIBOR_Recon.pyw, two files of C:\proj, started
    from different directories. *)
Lemma launchers_agree_witness :
  launcher_location host_win <> launcher_location host_win_pyw
  /\ omap workdir_of (launch_calls (run (code start_nibor_vbs) host_win))
     = omap workdir_of (launch_calls (run (code NIBOR_Recon_pyw) host_win_pyw))
  /\ omap script_of (launch_calls (run (code start_nibor_vbs) host_win))
     = omap script_of (launch_calls (run (code NIBOR_Recon_pyw) host_win_pyw)).
Proof.
  split; [discriminate|].
  apply (launchers_agree start_nibor_vbs NIBOR_Recon_pyw host_win host_win_pyw);
    reflexivity.
Defined.

(** How normalisation treats a last component. *)
Lemma clean_component_eqbs (c : string) :
  clean_component c = true ->
  String.eqb c "." || String.eqb c EmptyString = false /\ String.eqb c ".." = false.
Proof.
  unfold clean_component. intros H. apply andb_prop in H. destruct H as [H1 H2].
  apply negb_true_iff in H1. apply negb_true_iff in H2. split; assumption.
Qed.

Lemma normpath_go_snoc_clean (st l : list string) (c : string) :
  clean_component c = true ->
  normpath_go st (l ++ [c]) = normpath_go st l ++ [c].
Proof.
  intros Hc. destruct (clean_component_eqbs c Hc) as [E1 E2].
  revert st. induction l as [|x l IH]; intros st.
  - cbn [app normpath_go]. rewrite E1, E2. reflexivity.
  - cbn [app normpath_go].
    destruct (String.eqb x "." || String.eqb x EmptyString); [apply IH|].
    destruct (String.eqb x ".."); apply IH.
Qed.

Lemma normpath_go_snoc_empty (st l : list string) :
  normpath_go st (l ++ [EmptyString]) = normpath_go st l.
Proof.
  revert st. induction l as [|x l IH]; intros st.
  - reflexivity.
  - cbn [app normpath_go].
    destruct (String.eqb x "." || String.eqb x EmptyString); [apply IH|].
    destruct (String.eqb x ".."); apply IH.
Qed.

Lemma normpath_snoc_clean (l : list string) (c : string) :
  clean_component c = true ->
  normpath (l ++ [c]) = normpath l ++ [c].
Proof.
  intros Hc. destruct l as [|d l].
  - cbn [app normpath]. destruct (is_drive c); [reflexivity|].
    apply (normpath_go_snoc_clean [] [] c Hc).
  - cbn [app normpath]. destruct (is_drive d).
    + cbn [app]. f_equal. apply normpath_go_snoc_clean, Hc.
    + apply (normpath_go_snoc_clean [] (d :: l) c Hc).
Qed.

Lemma normpath_snoc_empty (l : list string) :
  normpath (l ++ [EmptyString]) = normpath l.
Proof.
  destruct l as [|d l]; [reflexivity|].
  cbn [app normpath]. destruct (is_drive d).
  - f_equal. apply normpath_go_snoc_empty.
  - apply (normpath_go_snoc_empty [] (d :: l)).
Qed.

(** ** Further properties of the batch file *)

(** Names with different endings of one length are different. *)
Lemma append_length (a b : string) :
  String.length (a +:+ b) = (String.length a + String.length b)%nat.
Proof.
  induction a as [|c a IH]; [reflexivity|].
  change (String c a +:+ b) with (String c (a +:+ b)).
  cbn [String.length]. rewrite IH. reflexivity.
Qed.

Lemma append_same_length_inj (a b s1 s2 : string) :
  String.length s1 = String.length s2 ->
  a +:+ s1 = b +:+ s2 -> s1 = s2.
Proof.
  intros Hlen. revert b. induction a as [|c a IH]; intros b E.
  - destruct b as [|c' b]; [exact E|].
    apply (f_equal String.length) in E.
    rewrite !append_length in E. cbn [String.length] in E. lia.
  - destruct b as [|c' b].
    + apply (f_equal String.length) in E.
      rewrite !append_length in E. cbn [String.length] in E. lia.
    + change (String c (a +:+ s1) = String c' (b +:+ s2)) in E.
      injection E as _ E. apply (IH b E).
Qed.

Lemma icon_name_not_lnk (e : bat_env) : icon_name e <> lnk_name e.
Proof.
  intros E. apply (f_equal last_char) in E.
  rewrite icon_name_last, lnk_name_last in E. discriminate.
Qed.

Lemma target_not_vbs_name (e : bat_env) : dp0 e +:+ "start_nibor.vbs" <> vbs_name e.
Proof.
  unfold vbs_name. intros E.
  change "start_nibor.vbs" with ("start_nibo" +:+ "r.vbs") in E.
  change "\CreateShortcut.vbs" with ("\CreateShortcu" +:+ "t.vbs") in E.
  rewrite <- !append_assoc in E.
  apply append_same_length_inj in E; [discriminate E | reflexivity].
Qed.

Lemma not_lnk_by_last (e : bat_env) (p : string) (c : ascii) :
  last_char p = Some c -> c <> "k"%char -> p <> lnk_name e.
Proof.
  intros Hp Hc E. rewrite E, lnk_name_last in Hp. congruence.
Qed.

Lemma not_vbs_by_last (e : bat_env) (p : string) (c : ascii) :
  last_char p = Some c -> c <> "s"%char -> p <> vbs_name e.
Proof.
  intros Hp Hc E. rewrite E, vbs_name_last in Hp. congruence.
Qed.

Lemma untouched_name (e : bat_env) (f : gmap string file) (p : string) :
  p <> lnk_name e -> p <> vbs_name e ->
  files (snd (run_bat e f)) !! p = f !! p.
Proof.
  intros Hl Hv. rewrite files_after_run_bat.
  rewrite lookup_insert_ne by (apply not_eq_sym, Hl).
  apply lookup_delete_ne, not_eq_sym, Hv.
Qed.

(** Whatever %TEMP% and %USERPROFILE% are, also when they name the
    directory of the batch file, a run leaves start_nibor.vbs, main.py and
    the icon file of that directory as they were: neither the temporary
    script nor the shortcut can take one of these names. *)
Theorem create_shortcut_spares_project_files (e : bat_env) (f : gmap string file) :
  let after := files (snd (run_bat e f)) in
  after !! (dp0 e +:+ "start_nibor.vbs") = f !! (dp0 e +:+ "start_nibor.vbs")
  /\ after !! (dp0 e +:+ "main.py") = f !! (dp0 e +:+ "main.py")
  /\ after !! (dp0 e +:+ "assets\icon.ico") = f !! (dp0 e +:+ "assets\icon.ico").
Proof.
  cbv zeta. split; [|split].
  - apply untouched_name.
    + apply (not_lnk_by_last e _ "s"%char); [|discriminate].
      rewrite last_char_app; [reflexivity | discriminate].
    + apply target_not_vbs_name.
  - apply untouched_name.
    + apply (not_lnk_by_last e _ "y"%char); [|discriminate].
      rewrite last_char_app; [reflexivity | discriminate].
    + apply (not_vbs_by_last e _ "y"%char); [|discriminate].
      rewrite last_char_app; [reflexivity | discriminate].
  - apply untouched_name.
    + apply icon_name_not_lnk.
    + apply not_eq_sym, vbs_name_not_icon.
Qed.

Lemma made_shortcut_again (e : bat_env) (f : gmap string file) :
  made_shortcut e (files (snd (run_bat e f))) = made_shortcut e f.
Proof.
  unfold made_shortcut, chosen_icon.
  rewrite (untouched_name e f (icon_name e))
    by (apply icon_name_not_lnk || apply not_eq_sym, vbs_name_not_icon).
  rewrite files_after_run_bat, lookup_insert_eq. reflexivity.
Qed.

(** Running the batch file a second time changes nothing: the file store
    after two runs is the file store after one, and the same text is
    printed again. *)
Theorem create_shortcut_idempotent (e : bat_env) (f : gmap string file) :
  run_bat e (files (snd (run_bat e f))) = run_bat e f.
Proof.
  rewrite (run_bat_closed e (files (snd (run_bat e f)))).
  rewrite made_shortcut_again.
  rewrite (run_bat_closed e f). cbn [snd files].
  rewrite delete_insert_ne by (apply vbs_name_not_lnk).
  rewrite delete_delete_eq, insert_insert_eq. reflexivity.
Qed.

(** The shortcut a run leaves depends on the environment through %~dp0,
    %USERPROFILE% and, when there is no icon file, the search of PATH, and
    on the file store through the presence of the icon file and the
    shortcut already at that name; %TEMP% and every other file play no
    part. *)
Theorem shortcut_determined_by (e e' : bat_env) (f f' : gmap string file) :
  dp0 e = dp0 e' ->
  USERPROFILE e = USERPROFILE e' ->
  (f !! icon_name e = None -> PATH_search e "pythonw.exe" = PATH_search e' "pythonw.exe") ->
  (is_Some (f !! icon_name e) <-> is_Some (f' !! icon_name e)) ->
  f !! lnk_name e = f' !! lnk_name e ->
  lnk_name e = lnk_name e'
  /\ files (snd (run_bat e f)) !! lnk_name e = files (snd (run_bat e' f')) !! lnk_name e'.
Proof.
  intros Hd Hu Hs Hi Hl.
  assert (El : lnk_name e = lnk_name e') by (unfold lnk_name; rewrite Hu; reflexivity).
  assert (Ei : icon_name e = icon_name e') by (unfold icon_name; rewrite Hd; reflexivity).
  split; [exact El|].
  rewrite !files_after_run_bat, !lookup_insert_eq. do 2 f_equal.
  unfold made_shortcut, chosen_icon. rewrite <- El, <- Ei, <- Hd, <- Hl.
  f_equal.
  destruct (f !! icon_name e) as [x|] eqn:Ef.
  - rewrite bool_decide_eq_true_2 by (eexists; reflexivity).
    rewrite bool_decide_eq_true_2 by (apply Hi; eexists; reflexivity). reflexivity.
  - rewrite bool_decide_eq_false_2 by (apply is_Some_None).
    rewrite bool_decide_eq_false_2.
    + apply Hs. reflexivity.
    + intros Hn. apply Hi in Hn. destruct Hn as [? Hn]. discriminate Hn.
Qed.

(** The same profile with another %TEMP%. *)
Lemma shortcut_determined_by_witness :
  lnk_name sample_env
  = lnk_name {| dp0 := dp0 sample_env; USERPROFILE := USERPROFILE sample_env;
                TEMP := "D:\scratch"; PATH_search := PATH_search sample_env |}
  /\ files (snd (run_bat sample_env ∅)) !! lnk_name sample_env
     = files (snd (run_bat {| dp0 := dp0 sample_env; USERPROFILE := USERPROFILE sample_env;
                              TEMP := "D:\scratch"; PATH_search := PATH_search sample_env |} ∅))
       !! lnk_name {| dp0 := dp0 sample_env; USERPROFILE := USERPROFILE sample_env;
                      TEMP := "D:\scratch"; PATH_search := PATH_search sample_env |}.
Proof.
  apply (shortcut_determined_by sample_env
           {| dp0 := dp0 sample_env; USERPROFILE := USERPROFILE sample_env;
              TEMP := "D:\scratch"; PATH_search := PATH_search sample_env |} ∅ ∅);
    reflexivity.
Defined.

(** ** From the shortcut to the application *)

Lemma split_path_not_nil (s : string) : split_path s <> [].
Proof.
  induction s as [|c s IH]; [discriminate|].
  cbn [split_path]. destruct (Ascii.eqb c "\"); [discriminate|].
  destruct (split_path s); discriminate.
Qed.

Lemma split_path_backslash (a b : string) :
  split_path (a +:+ String "\" b) = split_path a ++ split_path b.
Proof.
  induction a as [|c a IH]; [reflexivity|].
  change (String c a +:+ String "\" b) with (String c (a +:+ String "\" b)).
  cbn [split_path]. rewrite IH.
  destruct (Ascii.eqb c "\"); [reflexivity|].
  destruct (split_path a) as [|w ws] eqn:E; [|reflexivity].
  destruct (split_path_not_nil a E).
Qed.

(** Opening the shortcut the batch file has made starts start_nibor.vbs,
    which asks for pythonw main.py, hidden and unwaited, in the directory
    of the batch file; that directory is also the current directory the
    shortcut gives. [d] is that directory, %~dp0 without its final
    backslash. *)
Theorem shortcut_opens_main_py (e : bat_env) (f : gmap string file)
    (sc : shortcut) (h0 : host) (d : string) :
  dp0 e = d +:+ "\" ->
  files (snd (run_bat e f)) !! lnk_name e = Some (LnkFile sc) ->
  h_is_dir h0 (normpath (split_path d)) = true ->
  launch_calls (run start_nibor (open_shortcut sc h0))
    = [Spawn ["pythonw"; "main.py"] (normpath (split_path d)) true false]
  /\ h_cwd (open_shortcut sc h0) = normpath (split_path d).
Proof.
  intros Hd Hsc Hdir.
  rewrite files_after_run_bat, lookup_insert_eq in Hsc.
  injection Hsc as <-.
  assert (Hloc : launcher_location (open_shortcut (made_shortcut e f) h0)
                 = normpath (split_path d) ++ ["start_nibor.vbs"]).
  { unfold launcher_location, open_shortcut, abspath, on_windows.
    cbn [h_cwd h_file h_platform made_shortcut TargetPath String.eqb].
    change (String.eqb "win32" "win32") with true. cbv iota.
    rewrite Hd, append_assoc.
    change ("\" +:+ "start_nibor.vbs") with (String "\" "start_nibor.vbs").
    rewrite split_path_backslash.
    change (split_path "start_nibor.vbs") with ["start_nibor.vbs"].
    apply normpath_snoc_clean. reflexivity. }
  split.
  - rewrite start_nibor_run. cbv zeta. rewrite Hloc.
    unfold dirname. rewrite removelast_last.
    change (h_is_dir (open_shortcut (made_shortcut e f) h0)) with (h_is_dir h0).
    rewrite Hdir. destruct (h_on_path _ _); reflexivity.
  - unfold open_shortcut. cbn [h_cwd made_shortcut WorkingDirectory].
    rewrite Hd. change (d +:+ "\") with (d +:+ String "\" EmptyString).
    rewrite split_path_backslash.
    change (split_path EmptyString) with [EmptyString].
    apply normpath_snoc_empty.
Qed.

(** The shortcut made for C:\proj, opened on [host_win]. *)
Lemma shortcut_opens_main_py_witness :
  launch_calls (run start_nibor (open_shortcut (made_shortcut sample_env ∅) host_win))
    = [Spawn ["pythonw"; "main.py"] ["C:"; "proj"] true false]
  /\ h_cwd (open_shortcut (made_shortcut sample_env ∅) host_win) = ["C:"; "proj"].
Proof.
  apply (shortcut_opens_main_py sample_env ∅ (made_shortcut sample_env ∅) host_win "C:\proj").
  - reflexivity.
  - rewrite files_after_run_bat. apply lookup_insert_eq.
  - reflexivity.
Defined.
